(** * Server lifecycle and tool invocation of the MCP audit web application

    A shallow embedding of [ServerManager] and [MCPClient] from
    [flask_app.py].  The manager is a Python object mutated in place; here
    every method takes the manager value and the state of the operating
    system and returns the outcome together with the new manager and the new
    operating-system state.  Dictionaries are [gmap]s keyed by strings. *)

From stdpp Require Import gmap strings list fin_maps pretty functions.

Local Open Scope Z_scope.
Local Open Scope string_scope.
Local Open Scope list_scope.

(** ** JSON scalars

    The values read from [server_config.json] and passed as tool arguments.
    Nested arrays and objects are never inspected by the methods modelled
    below and are left out. *)

Inductive jval :=
  | JNull
  | JBool (b : bool)
  | JInt (z : Z)
  | JStr (s : string).

#[global] Instance jval_eq_dec : EqDecision jval.
Proof. solve_decision. Defined.

(** Python's [str(v)]. *)
Definition py_str (v : jval) : string :=
  match v with
  | JNull => "None"
  | JBool true => "True"
  | JBool false => "False"
  | JInt z => pretty z
  | JStr s => s
  end.

(** [f'{name}'] for a value that is a string or [None]. *)
Definition py_name (n : option string) : string :=
  match n with
  | Some s => s
  | None => "None"
  end.

(** ** The operating system seen by the application *)

(** One child process.  [exit_status] is what [Popen.poll()] returns: [None]
    while the process runs, its return code afterwards.  [on_sigterm] is the
    return code with which the process ends within the grace period once it
    is sent SIGTERM, or [None] if it is still running when the five seconds
    are over.  [signal_error] is the text of the [OSError] raised when a
    signal is sent to the running process, if the system refuses it. *)
Record os_proc := mk_proc {
  exit_status : option Z;
  on_sigterm : option Z;
  signal_error : option string
}.

(** The calls with an effect outside the application, in the order made. *)
Inductive os_call :=
  | Popen (cmd : list jval)
  | Terminate (pid : Z)
  | Wait (pid : Z) (timeout : option Z)
  | Kill (pid : Z)
  | RunScript (tool_name : string) (kwargs : gmap string jval).

(** What [subprocess.run] of the temporary script of [call_tool] gives:
    a return code and the captured standard error, or an exception (a
    timeout after 30 seconds, a failure to write the script, ...) with its
    text. *)
Inductive script_outcome :=
  | ScriptExit (returncode : Z) (stderr : string)
  | ScriptRaised (msg : string).

Record world := mk_world {
  procs : Z → os_proc;
  next_pid : Z;
  now : Z;
  spawn : list jval → string + os_proc;
  run_script : string → gmap string jval → script_outcome;
  worker_reply : Z → string → gmap string jval → jval;
  log : list os_call
}.

(** [spawn w cmd] is the outcome [subprocess.Popen(cmd, ...)] would have in
    [w]: the text of the exception it raises, or the new child.
    [worker_reply w pid tool kwargs] is the result payload that the worker
    with that process id answers to a [tools/call] request for [tool]. *)

Definition set_procs (f : Z → os_proc) (w : world) : world :=
  mk_world f (next_pid w) (now w) (spawn w) (run_script w) (worker_reply w)
    (log w).

Definition log_call (c : os_call) (w : world) : world :=
  mk_world (procs w) (next_pid w) (now w) (spawn w) (run_script w)
    (worker_reply w) (log w ++ [c]).

(** [process.poll()] *)
Definition poll (w : world) (pid : Z) : option Z :=
  exit_status (procs w pid).

Definition exited_with (code : Z) (p : os_proc) : os_proc :=
  mk_proc (Some code) (on_sigterm p) (signal_error p).

(** [subprocess.Popen(cmd, ...)]: the new child gets the next process id. *)
Definition popen (cmd : list jval) (w : world) : (string + Z) * world :=
  match spawn w cmd with
  | inl e => (inl e, log_call (Popen cmd) w)
  | inr p =>
      let pid := next_pid w in
      (inr pid,
       mk_world (<[pid := p]> (procs w)) (pid + 1) (now w) (spawn w)
         (run_script w) (worker_reply w) (log w ++ [Popen cmd]))
  end.

(** [process.terminate()]: nothing is sent to a process that has ended.
    A process that honours SIGTERM has ended by the time the grace period
    is over. *)
Definition terminate (pid : Z) (w : world) : string + world :=
  let p := procs w pid in
  match exit_status p with
  | Some _ => inr (log_call (Terminate pid) w)
  | None =>
      match signal_error p with
      | Some e => inl e
      | None =>
          match on_sigterm p with
          | Some code =>
              inr (log_call (Terminate pid)
                     (set_procs (<[pid := exited_with code p]> (procs w)) w))
          | None => inr (log_call (Terminate pid) w)
          end
      end
  end.

(** [process.wait(timeout=t)]: [inl] is [subprocess.TimeoutExpired]. *)
Definition wait_timeout (pid : Z) (t : Z) (w : world) : world + world :=
  let w' := log_call (Wait pid (Some t)) w in
  match poll w pid with
  | Some _ => inr w'
  | None => inl w'
  end.

(** [process.kill(); process.wait()]: SIGKILL cannot be caught, so the
    wait without a timeout returns. *)
Definition kill_and_wait (pid : Z) (w : world) : world :=
  let p := procs w pid in
  let w1 :=
    match exit_status p with
    | Some _ => w
    | None => set_procs (<[pid := exited_with (-9) p]> (procs w)) w
    end in
  log_call (Wait pid None) (log_call (Kill pid) w1).

(** ** [class ServerManager] *)

(** The parsed [server_config.json].  [servers] is [None] when the file has
    no such key.  For [default_server] the outer [None] is a missing key and
    [Some None] a JSON [null]. *)
Record config_file := mk_config {
  servers : option (gmap string (gmap string jval));
  default_server : option (option string)
}.

(** An entry of [active_servers].  [process] is the [Popen] handle, kept as
    its process id; [started_at] and [start_time] are both readings of the
    clock. *)
Record process_info := mk_info {
  process : Z;
  started_at : Z;
  start_time : Z;
  info_config : gmap string jval
}.

#[global] Instance process_info_eq_dec : EqDecision process_info.
Proof. solve_decision. Defined.

Record ServerManager := mk_manager {
  config : config_file;
  active_servers : gmap string process_info;
  current_server : option string
}.

Definition set_active_servers (m : gmap string process_info)
    (self : ServerManager) : ServerManager :=
  mk_manager (config self) m (current_server self).

Definition set_current_server (n : option string) (self : ServerManager)
    : ServerManager :=
  mk_manager (config self) (active_servers self) n.

(** [self.config.get('servers', {})] *)
Definition config_servers (self : ServerManager)
    : gmap string (gmap string jval) :=
  default ∅ (servers (config self)).

(** [_load_config]: [file] is [None] when reading or parsing fails. *)
Definition _load_config (file : option config_file) : config_file :=
  match file with
  | Some c => c
  | None => mk_config (Some ∅) (Some (Some "SecureAudit"))
  end.

(** [__init__] *)
Definition __init__ (file : option config_file) : ServerManager :=
  let cfg := _load_config file in
  mk_manager cfg ∅ (default (Some "SecureAudit") (default_server cfg)).

Definition get_server_config (server_name : string) (self : ServerManager)
    : option (gmap string jval) :=
  config_servers self !! server_name.

(** The dictionaries returned by [get_server_status]. *)
Inductive status :=
  | StatusRunning (pid : Z) (started : Z) (uptime : Z)
  | StatusEnded (exit_code : Z) (ended_at : Z)
  | StatusAbsent.

(** [status['running']] *)
Definition running (s : status) : bool :=
  match s with
  | StatusRunning _ _ _ => true
  | _ => false
  end.

Definition get_server_status (server_name : string) (self : ServerManager)
    (w : world) : status * ServerManager :=
  match active_servers self !! server_name with
  | Some info =>
      match poll w (process info) with
      | None =>
          (StatusRunning (process info) (started_at info)
             (now w - start_time info), self)
      | Some code =>
          (StatusEnded code (now w),
           set_active_servers (delete server_name (active_servers self)) self)
      end
  | None => (StatusAbsent, self)
  end.

(** The literal [server_commands] of [start_server].  Building it reads
    [config['host']] and then [config['port']] whatever the name is; [inl] is
    the text of the [KeyError]. *)
Definition server_commands (cfg : gmap string jval)
    : string + gmap string (list jval) :=
  match cfg !! "host" with
  | None => inl "'host'"
  | Some host =>
      match cfg !! "port" with
      | None => inl "'port'"
      | Some port =>
          inr (<["SecureAudit" :=
                   [JStr "python3"; JStr "servers/secure_audit_server.py";
                    JStr "--transport"; JStr "stdio"]]>
               (<["SampleServer" :=
                   [JStr "python3"; JStr "servers/sample_server.py";
                    JStr "--transport"; JStr "stdio"]]>
               (<["HttpAuditServer" :=
                   [JStr "python3"; JStr "servers/http_audit_server.py";
                    JStr "--transport"; JStr "http"; JStr "--host"; host;
                    JStr "--port"; JStr (py_str port)]]>
               (<["SSEAuditServer" :=
                   [JStr "python3"; JStr "servers/sse_audit_server.py";
                    JStr "--transport"; JStr "sse"; JStr "--host"; host;
                    JStr "--port"; JStr (py_str port)]]> ∅))))
      end
  end.

Definition outcome : Type := bool * string.

(** [start_server] from [config = self.get_server_config(server_name)] on,
    that is, once the guard against a running server has been passed. *)
Definition start_server_launch (server_name : string) (self : ServerManager)
    (w : world) : outcome * ServerManager * world :=
  match get_server_config server_name self with
  | None =>
      ((false, "Server " +:+ server_name +:+ " not found in configuration"),
       self, w)
  | Some cfg =>
      if decide (cfg = ∅) then
        ((false, "Server " +:+ server_name +:+ " not found in configuration"),
         self, w)
      else
        match server_commands cfg with
        | inl e => ((false, "Failed to start server: " +:+ e), self, w)
        | inr table =>
            match table !! server_name with
            | None => ((false, "Unknown server: " +:+ server_name), self, w)
            | Some cmd =>
                match popen cmd w with
                | (inl e, w') =>
                    ((false, "Failed to start server: " +:+ e), self, w')
                | (inr pid, w') =>
                    ((true, "Started " +:+ server_name +:+ " successfully"),
                     set_active_servers
                       (<[server_name := mk_info pid (now w') (now w') cfg]>
                          (active_servers self)) self,
                     w')
                end
            end
        end
  end.

Definition start_server (server_name : string) (self : ServerManager)
    (w : world) : outcome * ServerManager * world :=
  match active_servers self !! server_name with
  | Some _ =>
      let '(st, self') := get_server_status server_name self w in
      if running st then
        ((false, "Server " +:+ server_name +:+ " is already running"),
         self', w)
      else start_server_launch server_name self' w
  | None => start_server_launch server_name self w
  end.

Definition stop_server (server_name : string) (self : ServerManager)
    (w : world) : outcome * ServerManager * world :=
  match active_servers self !! server_name with
  | None =>
      ((false, "Server " +:+ server_name +:+ " is not running"), self, w)
  | Some info =>
      match terminate (process info) w with
      | inl e =>
          ((false, "Failed to stop server: " +:+ e), self,
           log_call (Terminate (process info)) w)
      | inr w1 =>
          let w2 :=
            match wait_timeout (process info) 5 w1 with
            | inr w2 => w2
            | inl w2 => kill_and_wait (process info) w2
            end in
          ((true, "Stopped " +:+ server_name +:+ " successfully"),
           set_active_servers (delete server_name (active_servers self)) self,
           w2)
      end
  end.

Definition switch_server (server_name : string) (self : ServerManager)
    (w : world) : outcome * ServerManager * world :=
  match config_servers self !! server_name with
  | None => ((false, "Server " +:+ server_name +:+ " not found"), self, w)
  | Some _ =>
      match active_servers self !! server_name with
      | None =>
          let '(res, self', w') := start_server server_name self w in
          if res.1 then
            ((true, "Switched to " +:+ server_name),
             set_current_server (Some server_name) self', w')
          else
            ((false,
              "Failed to start " +:+ server_name +:+ ": " +:+ res.2),
             self', w')
      | Some _ =>
          ((true, "Switched to " +:+ server_name),
           set_current_server (Some server_name) self, w)
      end
  end.

(** [main], up to [app.run]: the manager is created and the default server
    is started when its name is truthy. *)
Definition main_startup (file : option config_file) (w : world)
    : ServerManager * world :=
  let self := __init__ file in
  match current_server self with
  | None => (self, w)
  | Some n =>
      if decide (n = "") then (self, w)
      else let '(_, self', w') := start_server n self w in (self', w')
  end.

(** ** [class MCPClient] *)

(** The dictionaries returned by [call_tool]: with [success] true, or false
    with an [error] and, on all paths but the first, the [tool]. *)
Inductive tool_result :=
  | ToolSuccess (tool : string) (result : string) (args : gmap string jval)
      (timestamp : Z)
  | ToolFailure (error : string) (tool : option string).

Definition success (r : tool_result) : bool :=
  match r with
  | ToolSuccess _ _ _ _ => true
  | ToolFailure _ _ => false
  end.

(** [server_name not in self.server_manager.active_servers], for a name
    that may be [None]. *)
Definition in_active (n : option string) (self : ServerManager) : bool :=
  match n with
  | Some s => bool_decide (is_Some (active_servers self !! s))
  | None => false
  end.

(** [call_tool].  The client holds a reference to the one manager, which it
    reads and never changes. *)
Definition call_tool (tool_name : string) (kwargs : gmap string jval)
    (self : ServerManager) (w : world) : tool_result * world :=
  let server_name := current_server self in
  if negb (in_active server_name self) then
    (ToolFailure ("Server " +:+ py_name server_name +:+ " is not running")
       None, w)
  else
    let w' := log_call (RunScript tool_name kwargs) w in
    match run_script w tool_name kwargs with
    | ScriptRaised e => (ToolFailure e (Some tool_name), w')
    | ScriptExit returncode stderr =>
        if decide (returncode = 0) then
          (ToolSuccess tool_name
             ("Tool " +:+ tool_name +:+ " called successfully") kwargs
             (now w'), w')
        else
          (ToolFailure ("Tool execution failed: " +:+ stderr)
             (Some tool_name), w')
    end.

(** ** Sample configurations and systems for the closed examples *)

Module Sample.

(** A child that runs and ends with code [-15] when sent SIGTERM. *)
Definition obedient : os_proc := mk_proc None (Some (-15)) None.

(** A child that runs and is still there five seconds after SIGTERM. *)
Definition stubborn : os_proc := mk_proc None None None.

(** A child that has ended with code 1. *)
Definition dead : os_proc := mk_proc (Some 1) None None.

Definition net : gmap string jval :=
  <["host" := JStr "127.0.0.1"]> (<["port" := JInt 8080]> ∅).

Definition cfg : config_file :=
  mk_config
    (Some (<["SecureAudit" := net]> (<["Custom" := net]> ∅))) None.

(** Every [Popen] succeeds with an obedient child; the script of
    [call_tool] ends with return code 0; every worker echoes: it answers
    ["hi"] to any request. *)
Definition quiet (p : os_proc) : world :=
  mk_world (λ _, p) 100 1000 (λ _, inr obedient)
    (λ _ _, ScriptExit 0 "") (λ _ _ _, JStr "hi") [].

Definition entry : process_info := mk_info 7 900 900 net.

(** A manager with ["SecureAudit"] registered as process 7 and active. *)
Definition manager : ServerManager :=
  mk_manager cfg (<["SecureAudit" := entry]> ∅) (Some "SecureAudit").

Definition hi : gmap string jval := <["message" := JStr "hi"]> ∅.

(** A running child to which the system lets no signal be sent. *)
Definition guarded : os_proc :=
  mk_proc None (Some 0) (Some "Operation not permitted").

(** [manager] with no active worker named. *)
Definition unpointed : ServerManager := set_current_server None manager.

(** [manager] once ["SecureAudit"] has been stopped. *)
Definition stopped : ServerManager :=
  set_active_servers (delete "SecureAudit" (active_servers manager)) manager.

End Sample.

(** ** Auxiliary definitions for the statements *)

(** The process is killed from outside the application. *)
Definition killed_outside (pid : Z) (w : world) : world :=
  set_procs (<[pid := exited_with (-9) (procs w pid)]> (procs w)) w.

(** The calls [stop_server] makes for a process that is registered and whose
    signals are not refused. *)
Definition stop_calls (pid : Z) (p : os_proc) : list os_call :=
  [Terminate pid; Wait pid (Some 5)] ++
  match exit_status p, on_sigterm p with
  | None, None => [Kill pid; Wait pid None]
  | _, _ => []
  end.

(** The keys of the literal [server_commands]. *)
Definition table_names : gset string :=
  {["SecureAudit"; "SampleServer"; "HttpAuditServer"; "SSEAuditServer"]}.

(** The same system with other answers from the workers. *)
Definition set_worker_reply (f : Z → string → gmap string jval → jval)
    (w : world) : world :=
  mk_world (procs w) (next_pid w) (now w) (spawn w) (run_script w) f (log w).

(** ** The rest of [ServerManager] and the callers in [flask_app.py] *)

(** One value of the dictionary returned by [list_servers]. *)
Record server_row := mk_row {
  row_config : gmap string jval;
  row_status : status;
  is_current : bool
}.

(** The loop of [list_servers] over [items], the pairs that
    [self.config.get('servers', {}).items()] yields, in the order of the
    dictionary. *)
Fixpoint list_servers_loop (items : list (string * gmap string jval))
    (servers : gmap string server_row) (self : ServerManager) (w : world)
    : gmap string server_row * ServerManager :=
  match items with
  | [] => (servers, self)
  | (name, cfg) :: rest =>
      let '(st, self') := get_server_status name self w in
      list_servers_loop rest
        (<[name := mk_row cfg st
                     (bool_decide (Some name = current_server self'))]>
           servers)
        self' w
  end.

Definition list_servers (items : list (string * gmap string jval))
    (self : ServerManager) (w : world)
    : gmap string server_row * ServerManager :=
  list_servers_loop items ∅ self w.

(** The loop at the end of [main], run on Ctrl-C: [names] is
    [list(server_manager.active_servers.keys())]. *)
Fixpoint stop_all (names : list string) (self : ServerManager) (w : world)
    : ServerManager * world :=
  match names with
  | [] => (self, w)
  | name :: rest =>
      let '(_, self', w') := stop_server name self w in
      stop_all rest self' w'
  end.

(** *** Routes *)

(** What a view returns, and the messages it flashes, each with its
    category. *)
Inductive response :=
  | Redirect (endpoint : string)
  | RedirectAudit (endpoint : string) (audit_id : Z)
  | Render (template : string).

Definition flashes : Type := list (string * string).

(** [result.get("error", "Unknown error")] *)
Definition error_of (r : tool_result) : string :=
  match r with
  | ToolSuccess _ _ _ _ => "Unknown error"
  | ToolFailure e _ => e
  end.

(** [request.form.get(field, default)] *)
Definition form_get (form : gmap string string) (field : string)
    (dflt : string) : string :=
  default dflt (form !! field).

(** The keyword arguments [create_audit] passes to [call_tool]. *)
Definition create_audit_kwargs (form : gmap string string)
    : gmap string jval :=
  <["title" := JStr (form_get form "title" "")]>
  (<["description" := JStr (form_get form "description" "")]>
  (<["date" := JStr (form_get form "date" "")]>
  (<["status" := JStr (form_get form "status" "open")]>
  (<["assigned_auditor" := JStr (form_get form "assigned_auditor" "")]> ∅)))).

(** The route [create_audit]; [form] is [None] for a GET request. *)
Definition create_audit (form : option (gmap string string))
    (self : ServerManager) (w : world) : flashes * response * world :=
  match form with
  | None => ([], Render "create_audit.html", w)
  | Some form =>
      if decide (form_get form "title" "" = "") then
        ([("Title is required", "error")], Render "create_audit.html", w)
      else
        let '(result, w') :=
          call_tool "create_audit" (create_audit_kwargs form) self w in
        if success result then
          ([("Audit created successfully", "success")],
           Redirect "list_audits", w')
        else
          ([("Failed to create audit: " +:+ error_of result, "error")],
           Render "create_audit.html", w')
  end.

(** The loop of [update_audit] over the five fields: a field goes into
    [updates] when the form has a non-empty value for it. *)
Fixpoint collect_updates (fields : list string) (form : gmap string string)
    (updates : gmap string jval) : gmap string jval :=
  match fields with
  | [] => updates
  | field :: rest =>
      match form !! field with
      | Some value =>
          if decide (value = "") then collect_updates rest form updates
          else collect_updates rest form (<[field := JStr value]> updates)
      | None => collect_updates rest form updates
      end
  end.

Definition update_fields : list string :=
  ["title"; "description"; "date"; "status"; "assigned_auditor"].

(** The route [update_audit]; [form] is [None] for a GET request. *)
Definition update_audit (audit_id : Z) (form : option (gmap string string))
    (self : ServerManager) (w : world) : flashes * response * world :=
  match form with
  | None => ([], Render "update_audit.html", w)
  | Some form =>
      let updates := collect_updates update_fields form ∅ in
      let '(result, w') :=
        call_tool "update_audit"
          (<["audit_id" := JInt audit_id]> ∅ ∪ updates) self w in
      if success result then
        ([("Audit updated successfully", "success")],
         RedirectAudit "audit_detail" audit_id, w')
      else
        ([("Failed to update audit: " +:+ error_of result, "error")],
         Render "update_audit.html", w')
  end.

(** *** Histories *)

(** A process ends by itself, or is killed from outside, with [code]. *)
Definition exits_outside (pid : Z) (code : Z) (w : world) : world :=
  match exit_status (procs w pid) with
  | Some _ => w
  | None => set_procs (<[pid := exited_with code (procs w pid)]> (procs w)) w
  end.

(** What can happen to a manager after it is created: a call of one of its
    methods or of the client, or the end of a process outside its control. *)
Inductive event :=
  | EStatus (name : string)
  | EList (items : list (string * gmap string jval))
  | EStart (name : string)
  | EStop (name : string)
  | ESwitch (name : string)
  | ECall (tool_name : string) (kwargs : gmap string jval)
  | EExit (pid : Z) (code : Z).

Definition step (s : ServerManager * world) (e : event)
    : ServerManager * world :=
  let '(self, w) := s in
  match e with
  | EStatus name => ((get_server_status name self w).2, w)
  | EList items => ((list_servers items self w).2, w)
  | EStart name =>
      let '(_, self', w') := start_server name self w in (self', w')
  | EStop name =>
      let '(_, self', w') := stop_server name self w in (self', w')
  | ESwitch name =>
      let '(_, self', w') := switch_server name self w in (self', w')
  | ECall tool_name kwargs => (self, (call_tool tool_name kwargs self w).2)
  | EExit pid code => (self, exits_outside pid code w)
  end.

Definition run (es : list event) (s : ServerManager * world)
    : ServerManager * world :=
  foldl step s es.

(** An event that is neither a switch nor a start of [name]. *)
Definition no_restart (name : string) (e : event) : Prop :=
  match e with
  | EStart n => n ≠ name
  | ESwitch _ => False
  | _ => True
  end.

(** What holds of the registry in every history (see
    [registry_ok_run]): the configuration is the loaded one; every
    registered name is a key of the literal table and of the configuration,
    with the configuration entry stored beside a process id already handed
    out; no two names hold the same process; the pointer is the default or
    a configured name. *)
Record registry_ok (file : option config_file) (self : ServerManager)
    (w : world) : Prop := mk_registry_ok {
  ok_config : config self = _load_config file;
  ok_entry : ∀ name info,
    active_servers self !! name = Some info →
    name ∈ table_names ∧
    config_servers self !! name = Some (info_config info) ∧
    process info < next_pid w;
  ok_distinct : ∀ n1 n2 i1 i2,
    active_servers self !! n1 = Some i1 →
    active_servers self !! n2 = Some i2 →
    process i1 = process i2 → n1 = n2;
  ok_pointer :
    current_server self = current_server (__init__ file) ∨
    ∃ name, current_server self = Some name ∧
            is_Some (config_servers self !! name)
}.

(** ** Basic facts about the operating-system model *)

Section OsFacts.

Variables (pid : Z) (w : world).

Lemma poll_log_call c q : poll (log_call c w) q = poll w q.
Proof. reflexivity. Qed.

Lemma terminate_log w1 :
  terminate pid w = inr w1 → log w1 = log w ++ [Terminate pid].
Proof.
  unfold terminate.
  destruct (exit_status (procs w pid)); [by intros [= <-]|].
  destruct (signal_error (procs w pid)); [done|].
  destruct (on_sigterm (procs w pid)); by intros [= <-].
Qed.

Lemma terminate_raises :
  is_Some (exit_status (procs w pid)) ∨ signal_error (procs w pid) = None →
  ∃ w1, terminate pid w = inr w1.
Proof.
  unfold terminate. intros [[c Hc]|Hs].
  - rewrite Hc. eauto.
  - destruct (exit_status (procs w pid)); [eauto|].
    rewrite Hs. destruct (on_sigterm (procs w pid)); eauto.
Qed.

(** After [terminate], the process has ended exactly when it had ended
    before or honours SIGTERM. *)
Lemma terminate_poll w1 :
  terminate pid w = inr w1 →
  poll w1 pid =
    match exit_status (procs w pid) with
    | Some c => Some c
    | None => on_sigterm (procs w pid)
    end.
Proof.
  unfold terminate, poll.
  destruct (exit_status (procs w pid)) as [c|] eqn:He.
  { intros [= <-]. simpl. by rewrite He. }
  destruct (signal_error (procs w pid)); [done|].
  destruct (on_sigterm (procs w pid)) as [c|] eqn:Ht; intros [= <-]; simpl.
  - by rewrite fn_lookup_insert.
  - done.
Qed.

Lemma kill_and_wait_poll : is_Some (poll (kill_and_wait pid w) pid).
Proof.
  unfold kill_and_wait, poll; simpl.
  destruct (exit_status (procs w pid)) eqn:He; simpl.
  - rewrite He. eauto.
  - rewrite fn_lookup_insert. simpl. eauto.
Qed.

Lemma kill_and_wait_log :
  log (kill_and_wait pid w) = log w ++ [Kill pid; Wait pid None].
Proof.
  unfold kill_and_wait; simpl.
  destruct (exit_status (procs w pid)); simpl; by rewrite <- app_assoc.
Qed.

End OsFacts.

(** ** The active pointer is written by [switch_server] alone *)

Lemma get_server_status_current n self w :
  current_server (get_server_status n self w).2 = current_server self.
Proof.
  unfold get_server_status.
  destruct (active_servers self !! n) as [info|]; [|done].
  by destruct (poll w (process info)).
Qed.

Lemma get_server_status_config n self w :
  config (get_server_status n self w).2 = config self.
Proof.
  unfold get_server_status.
  destruct (active_servers self !! n) as [info|]; [|done].
  by destruct (poll w (process info)).
Qed.

Lemma start_server_launch_current n self w :
  current_server (start_server_launch n self w).1.2 = current_server self.
Proof.
  unfold start_server_launch.
  destruct (get_server_config n self) as [c|]; [|done].
  case_decide; [done|].
  destruct (server_commands c) as [e|table]; [done|].
  destruct (table !! n) as [cmd|]; [|done].
  by destruct (popen cmd w) as [[e|p] w'].
Qed.

Lemma start_server_current n self w :
  current_server (start_server n self w).1.2 = current_server self.
Proof.
  unfold start_server.
  destruct (active_servers self !! n) as [info|] eqn:Hn;
    [|apply start_server_launch_current].
  pose proof (get_server_status_current n self w) as Hc.
  destruct (get_server_status n self w) as [st self'].
  destruct (running st); [done|].
  by rewrite start_server_launch_current.
Qed.

Lemma stop_server_current n self w :
  current_server (stop_server n self w).1.2 = current_server self.
Proof.
  unfold stop_server.
  destruct (active_servers self !! n) as [info|]; [|done].
  by destruct (terminate (process info) w).
Qed.

(** A start that succeeds leaves its name registered. *)
Lemma start_server_launch_registers n self w :
  (start_server_launch n self w).1.1.1 = true →
  is_Some (active_servers (start_server_launch n self w).1.2 !! n).
Proof.
  unfold start_server_launch.
  destruct (get_server_config n self) as [c|]; [|done].
  case_decide; [done|].
  destruct (server_commands c) as [e|table]; [done|].
  destruct (table !! n) as [cmd|]; [|done].
  destruct (popen cmd w) as [[e|p] w']; [done|].
  intros _. simpl. rewrite lookup_insert_eq. eauto.
Qed.

Lemma start_server_registers n self w :
  (start_server n self w).1.1.1 = true →
  is_Some (active_servers (start_server n self w).1.2 !! n).
Proof.
  unfold start_server.
  destruct (active_servers self !! n) as [info|];
    [|apply start_server_launch_registers].
  destruct (get_server_status n self w) as [st self'].
  destruct (running st); [done|apply start_server_launch_registers].
Qed.

(** ** Status queries *)

(** C7.  [get_server_status] asks the operating system each time it is
    called: for a name registered in [active_servers], the same manager
    answers "running" in a system where the process runs, and in a system
    where the process has ended with [code] it answers not running with that
    exit code and drops the name from [active_servers], every other entry
    and the active pointer being kept.  No [stop_server] is involved. *)
Theorem get_server_status_lazy_reap name self w info code :
  active_servers self !! name = Some info →
  poll w (process info) = Some code →
  (∀ w0, poll w0 (process info) = None →
     get_server_status name self w0 =
       (StatusRunning (process info) (started_at info)
          (now w0 - start_time info), self)) ∧
  (get_server_status name self w).1 = StatusEnded code (now w) ∧
  running (get_server_status name self w).1 = false ∧
  active_servers (get_server_status name self w).2 =
    delete name (active_servers self) ∧
  active_servers (get_server_status name self w).2 !! name = None ∧
  current_server (get_server_status name self w).2 = current_server self.
Proof.
  intros Hin Hdead. split.
  { intros w0 Hlive. unfold get_server_status. by rewrite Hin, Hlive. }
  unfold get_server_status. rewrite Hin, Hdead. simpl.
  repeat split. apply lookup_delete_eq.
Qed.

Lemma get_server_status_lazy_reap_witness :
  (get_server_status "SecureAudit" Sample.manager
     (Sample.quiet Sample.dead)).1 = StatusEnded 1 1000 ∧
  active_servers
    (get_server_status "SecureAudit" Sample.manager
       (Sample.quiet Sample.dead)).2 !! "SecureAudit" = None.
Proof.
  destruct (get_server_status_lazy_reap "SecureAudit" Sample.manager
              (Sample.quiet Sample.dead) Sample.entry 1)
    as (_ & Hst & _ & _ & Hgone & _); [reflexivity | reflexivity |].
  split; [exact Hst | exact Hgone].
Defined.

(** A process killed from outside after a successful start is reported as
    ended by the next status query. *)
Example status_after_outside_kill :
  let '(_, self, w) :=
    start_server "SecureAudit" (__init__ (Some Sample.cfg))
      (Sample.quiet Sample.dead) in
  running (get_server_status "SecureAudit" self w).1 = true ∧
  get_server_status "SecureAudit" self (killed_outside 100 w) =
    (StatusEnded (-9) 1000, __init__ (Some Sample.cfg)).
Proof. vm_compute. done. Qed.

(** ** Starting *)

(** C6.  Starting a name that is registered with a live process fails with
    the "already running" message and changes neither the manager (the entry
    and its process id stay as they were) nor the operating system (no
    [Popen] is made). *)
Theorem start_server_already_running name self w info :
  active_servers self !! name = Some info →
  poll w (process info) = None →
  start_server name self w =
    ((false, "Server " +:+ name +:+ " is already running"), self, w).
Proof.
  intros Hin Hlive. unfold start_server, get_server_status.
  by rewrite Hin, Hlive.
Qed.

Lemma start_server_already_running_witness :
  start_server "SecureAudit" Sample.manager (Sample.quiet Sample.obedient) =
    ((false, "Server SecureAudit is already running"), Sample.manager,
     Sample.quiet Sample.obedient).
Proof.
  apply (start_server_already_running "SecureAudit" Sample.manager
           (Sample.quiet Sample.obedient) Sample.entry); reflexivity.
Defined.

(** Two starts in a row: one process, one entry. *)
Example start_twice :
  let '(r1, self1, w1) :=
    start_server "SecureAudit" (__init__ (Some Sample.cfg))
      (Sample.quiet Sample.dead) in
  let '(r2, self2, w2) := start_server "SecureAudit" self1 w1 in
  r1.1 = true ∧ r2 = (false, "Server SecureAudit is already running") ∧
  process <$> active_servers self2 !! "SecureAudit" = Some 100 ∧
  length (log w2) = 1%nat.
Proof. vm_compute. done. Qed.

(** ** Switching *)

(** C10.  [switch_server] looks only at whether the name is a key of
    [active_servers]: when the entry is still there but its process has
    already ended, the call succeeds and the pointer holds the name
    afterwards, whatever it held before; [active_servers] and the operating
    system are unchanged, so the dead entry stays, the process is as dead
    as before and nothing is started. *)
Theorem switch_server_stale_entry name self w cfg info code :
  config_servers self !! name = Some cfg →
  active_servers self !! name = Some info →
  poll w (process info) = Some code →
  switch_server name self w =
    ((true, "Switched to " +:+ name),
     set_current_server (Some name) self, w) ∧
  current_server (switch_server name self w).1.2 = Some name ∧
  active_servers (switch_server name self w).1.2 = active_servers self ∧
  active_servers (switch_server name self w).1.2 !! name = Some info ∧
  poll (switch_server name self w).2 (process info) = Some code ∧
  log (switch_server name self w).2 = log w.
Proof.
  intros Hcfg Hin Hdead.
  assert (switch_server name self w =
            ((true, "Switched to " +:+ name),
             set_current_server (Some name) self, w)) as ->.
  { unfold switch_server. by rewrite Hcfg, Hin. }
  done.
Qed.

Lemma switch_server_stale_entry_witness :
  current_server Sample.unpointed = None ∧
  (switch_server "SecureAudit" Sample.unpointed
     (Sample.quiet Sample.dead)).1.1 = (true, "Switched to SecureAudit") ∧
  current_server
    (switch_server "SecureAudit" Sample.unpointed
       (Sample.quiet Sample.dead)).1.2 = Some "SecureAudit" ∧
  log (switch_server "SecureAudit" Sample.unpointed
         (Sample.quiet Sample.dead)).2 = [].
Proof.
  destruct (switch_server_stale_entry "SecureAudit"
              Sample.unpointed
              (Sample.quiet Sample.dead) Sample.net Sample.entry 1)
    as (Heq & Hcur & _ & _ & _ & Hlog); [reflexivity..|].
  split; [reflexivity|]. split; [by rewrite Heq|].
  split; [exact Hcur|exact Hlog].
Defined.

(** ** Stopping *)

Lemma stop_server_registered name self w info :
  active_servers self !! name = Some info →
  is_Some (exit_status (procs w (process info))) ∨
    signal_error (procs w (process info)) = None →
  ∃ w',
    stop_server name self w =
      ((true, "Stopped " +:+ name +:+ " successfully"),
       set_active_servers (delete name (active_servers self)) self, w') ∧
    is_Some (poll w' (process info)) ∧
    log w' = log w ++ stop_calls (process info) (procs w (process info)).
Proof.
  intros Hin Hsig.
  destruct (terminate_raises _ _ Hsig) as [w1 Hterm].
  pose proof (terminate_poll _ _ _ Hterm) as Hpoll.
  pose proof (terminate_log _ _ _ Hterm) as Hlog.
  unfold stop_server. rewrite Hin, Hterm. eexists. split; [reflexivity|].
  unfold wait_timeout, stop_calls. rewrite Hpoll.
  destruct (exit_status (procs w (process info))) as [c|] eqn:He.
  { split; [rewrite poll_log_call, Hpoll; eauto|].
    simpl. by rewrite Hlog, <- app_assoc. }
  destruct (on_sigterm (procs w (process info))) as [c|] eqn:Ht.
  { split; [rewrite poll_log_call, Hpoll; eauto|].
    simpl. by rewrite Hlog, <- app_assoc. }
  split; [apply kill_and_wait_poll|].
  rewrite kill_and_wait_log. simpl. by rewrite Hlog, <- !app_assoc.
Qed.

(** When the system refuses the signal, [terminate()] raises: the call
    fails and the entry is kept. *)
Lemma stop_server_signal_refused name self w info e :
  active_servers self !! name = Some info →
  exit_status (procs w (process info)) = None →
  signal_error (procs w (process info)) = Some e →
  stop_server name self w =
    ((false, "Failed to stop server: " +:+ e), self,
     log_call (Terminate (process info)) w).
Proof.
  intros Hin He Hs. unfold stop_server, terminate.
  by rewrite Hin, He, Hs.
Qed.

(** C8, as the specification words it, fails when the system refuses the
    signal: the worker is registered and running, [terminate()] raises, and
    [stop_server] returns a failure after that one call, with no wait and no
    kill; the process still runs and the worker stays registered. *)
Lemma stop_server_refused_signal :
  active_servers Sample.manager !! "SecureAudit" = Some Sample.entry ∧
  poll (Sample.quiet Sample.guarded) (process Sample.entry) = None ∧
  (stop_server "SecureAudit" Sample.manager
     (Sample.quiet Sample.guarded)).1.1 =
    (false, "Failed to stop server: Operation not permitted") ∧
  active_servers
    (stop_server "SecureAudit" Sample.manager
       (Sample.quiet Sample.guarded)).1.2 !! "SecureAudit" =
    Some Sample.entry ∧
  log (stop_server "SecureAudit" Sample.manager
         (Sample.quiet Sample.guarded)).2 = [Terminate 7] ∧
  poll (stop_server "SecureAudit" Sample.manager
          (Sample.quiet Sample.guarded)).2 7 = None.
Proof. repeat split. Qed.

(** C8, amended.  [stop_server] fails with the "not running" message,
    changing nothing, when the name is not a key of [active_servers].
    Otherwise it calls [terminate()].  If the process is running and the
    system refuses the signal, that call raises: [stop_server] fails with
    the text of the error, makes no further call, leaves the process
    running and keeps the name registered.  In every other case it goes on
    with [wait(timeout=5)]; if the process had not ended and does not end on
    SIGTERM within that time it calls [kill()] and then [wait()] without a
    timeout; it makes no other call; the process has ended when it returns,
    the name is removed from [active_servers], and the call succeeds. *)
Theorem stop_server_graceful_then_forced name self w :
  (active_servers self !! name = None →
   stop_server name self w =
     ((false, "Server " +:+ name +:+ " is not running"), self, w)) ∧
  (∀ info e,
     active_servers self !! name = Some info →
     exit_status (procs w (process info)) = None →
     signal_error (procs w (process info)) = Some e →
     stop_server name self w =
       ((false, "Failed to stop server: " +:+ e), self,
        log_call (Terminate (process info)) w) ∧
     active_servers (stop_server name self w).1.2 !! name = Some info ∧
     poll (stop_server name self w).2 (process info) = None ∧
     log (stop_server name self w).2 = log w ++ [Terminate (process info)]) ∧
  (∀ info,
     active_servers self !! name = Some info →
     is_Some (exit_status (procs w (process info))) ∨
       signal_error (procs w (process info)) = None →
     ∃ w',
       stop_server name self w =
         ((true, "Stopped " +:+ name +:+ " successfully"),
          set_active_servers (delete name (active_servers self)) self, w') ∧
       active_servers (stop_server name self w).1.2 !! name = None ∧
       is_Some (poll w' (process info)) ∧
       log w' =
         log w ++ [Terminate (process info); Wait (process info) (Some 5)] ++
         match exit_status (procs w (process info)),
               on_sigterm (procs w (process info)) with
         | None, None => [Kill (process info); Wait (process info) None]
         | _, _ => []
         end).
Proof.
  split; [|split].
  - intros Hout. unfold stop_server. by rewrite Hout.
  - intros info e Hin Hlive Hsig.
    rewrite (stop_server_signal_refused name self w info e Hin Hlive Hsig).
    done.
  - intros info Hin Hsig.
    destruct (stop_server_registered name self w info Hin Hsig)
      as (w' & Heq & Hended & Hlog).
    exists w'. rewrite Heq. simpl. repeat split; try done.
    apply lookup_delete_eq.
Qed.

Lemma stop_server_graceful_then_forced_witness :
  stop_server "Custom" Sample.manager (Sample.quiet Sample.stubborn) =
    ((false, "Server Custom is not running"), Sample.manager,
     Sample.quiet Sample.stubborn) ∧
  stop_server "SecureAudit" Sample.manager
    (Sample.quiet (mk_proc None None (Some "denied"))) =
    ((false, "Failed to stop server: denied"), Sample.manager,
     log_call (Terminate 7)
       (Sample.quiet (mk_proc None None (Some "denied")))) ∧
  ∃ w',
    stop_server "SecureAudit" Sample.manager (Sample.quiet Sample.stubborn) =
      ((true, "Stopped SecureAudit successfully"),
       set_active_servers (delete "SecureAudit" (active_servers Sample.manager))
         Sample.manager, w') ∧
    poll w' 7 = Some (-9) ∧
    log w' = [Terminate 7; Wait 7 (Some 5); Kill 7; Wait 7 None].
Proof.
  split; [|split].
  - apply (stop_server_graceful_then_forced "Custom" Sample.manager
             (Sample.quiet Sample.stubborn)).
    reflexivity.
  - apply (proj1 (proj2 (stop_server_graceful_then_forced "SecureAudit"
             Sample.manager
             (Sample.quiet (mk_proc None None (Some "denied")))))
             Sample.entry "denied"); reflexivity.
  - destruct (stop_server_graceful_then_forced "SecureAudit" Sample.manager
                (Sample.quiet Sample.stubborn)) as (_ & _ & H).
    destruct (H Sample.entry) as (w' & Heq & _ & _ & Hlog);
      [reflexivity | right; reflexivity |].
    exists w'. split; [exact Heq|]. split; [|exact Hlog].
    injection Heq as <-. reflexivity.
Defined.

(** A child that honours SIGTERM is not killed. *)
Example stop_obedient :
  log (stop_server "SecureAudit" Sample.manager
         (Sample.quiet Sample.obedient)).2 =
    [Terminate 7; Wait 7 (Some 5)].
Proof. reflexivity. Qed.

(** ** The active pointer across the lifecycle operations *)

(** C1, as the specification words it, fails: stopping the active worker
    with success leaves the pointer on the stopped name, and the tool call
    that follows fails with the "is not running" message about that name,
    not for want of an active worker. *)
Lemma stop_active_pointer_not_cleared :
  current_server Sample.manager = Some "SecureAudit" ∧
  (stop_server "SecureAudit" Sample.manager
     (Sample.quiet Sample.obedient)).1.1 =
    (true, "Stopped SecureAudit successfully") ∧
  current_server
    (stop_server "SecureAudit" Sample.manager
       (Sample.quiet Sample.obedient)).1.2 ≠ None ∧
  (call_tool "echo" Sample.hi
     (stop_server "SecureAudit" Sample.manager
        (Sample.quiet Sample.obedient)).1.2
     (stop_server "SecureAudit" Sample.manager
        (Sample.quiet Sample.obedient)).2).1 =
    ToolFailure "Server SecureAudit is not running" None.
Proof. vm_compute. repeat split; done. Qed.

(** C2, as the specification words it, fails at startup: the manager is
    created with the pointer on the default name while nothing runs, and it
    stays so when the start of the default server in [main] fails. *)
Lemma pointer_set_at_startup :
  current_server (__init__ None) = Some "SecureAudit" ∧
  active_servers (__init__ None) !! "SecureAudit" = None ∧
  current_server (main_startup None (Sample.quiet Sample.dead)).1 =
    Some "SecureAudit" ∧
  active_servers (main_startup None (Sample.quiet Sample.dead)).1
    !! "SecureAudit" = None.
Proof. vm_compute. repeat split; done. Qed.

(** C2, amended.  A new manager has an empty running map and its pointer
    set to the value the configuration gives for [default_server]:
    ["SecureAudit"] when the file cannot be read or has no such key,
    otherwise what the file says, which is [None] only for a JSON [null].
    A status query, a start and a stop never write the pointer.  A switch
    that succeeds sets the pointer to its argument, which is then a key of
    the running map; a switch that fails leaves the pointer as it was. *)
Theorem pointer_written_by_switch_only :
  (∀ file,
     active_servers (__init__ file) = ∅ ∧
     current_server (__init__ file) =
       default (Some "SecureAudit") (default_server (_load_config file))) ∧
  current_server (__init__ None) = Some "SecureAudit" ∧
  (∀ srv,
     current_server (__init__ (Some (mk_config srv None))) =
       Some "SecureAudit") ∧
  (∀ srv v, current_server (__init__ (Some (mk_config srv (Some v)))) = v) ∧
  (∀ name self w,
     current_server (get_server_status name self w).2 = current_server self) ∧
  (∀ name self w,
     current_server (start_server name self w).1.2 = current_server self) ∧
  (∀ name self w,
     current_server (stop_server name self w).1.2 = current_server self) ∧
  (∀ name self w,
     if (switch_server name self w).1.1.1 then
       current_server (switch_server name self w).1.2 = Some name ∧
       is_Some (active_servers (switch_server name self w).1.2 !! name)
     else
       current_server (switch_server name self w).1.2 = current_server self).
Proof.
  split; [done|]. split; [done|]. split; [done|]. split; [done|].
  split; [apply get_server_status_current|].
  split; [apply start_server_current|].
  split; [apply stop_server_current|].
  intros name self w. unfold switch_server.
  destruct (config_servers self !! name) as [cfg|]; [|done].
  destruct (active_servers self !! name) as [info|] eqn:Hin.
  { simpl. rewrite Hin. eauto. }
  pose proof (start_server_current name self w) as Hcur.
  pose proof (start_server_registers name self w) as Hreg.
  destruct (start_server name self w) as [[[ok msg] self'] w'].
  simpl in *. destruct ok; simpl; auto.
Qed.

(** C5, as the specification words it, fails for a target that is
    registered but whose process has ended: the target is configured and not
    running (a status query says so), yet [switch_server] makes it active
    and succeeds without any start; a status query afterwards still says
    not running, whereas [start_server] on the same state spawns a
    process. *)
Lemma switch_server_dead_target_not_started :
  is_Some (config_servers Sample.unpointed !! "SecureAudit") ∧
  running
    (get_server_status "SecureAudit" Sample.unpointed
       (Sample.quiet Sample.dead)).1 = false ∧
  (switch_server "SecureAudit" Sample.unpointed
     (Sample.quiet Sample.dead)).1.1 = (true, "Switched to SecureAudit") ∧
  log (switch_server "SecureAudit" Sample.unpointed
         (Sample.quiet Sample.dead)).2 = [] ∧
  running
    (get_server_status "SecureAudit"
       (switch_server "SecureAudit" Sample.unpointed
          (Sample.quiet Sample.dead)).1.2
       (switch_server "SecureAudit" Sample.unpointed
          (Sample.quiet Sample.dead)).2).1 = false ∧
  log (start_server "SecureAudit" Sample.unpointed
         (Sample.quiet Sample.dead)).2 =
    [Popen [JStr "python3"; JStr "servers/secure_audit_server.py";
            JStr "--transport"; JStr "stdio"]].
Proof. split; [by eexists|]. repeat split. Qed.

(** C5, amended.  [switch_server name]: when [name] is not a key of the
    configured servers it fails with the "not found" message and changes
    nothing, the pointer included.  When [name] is configured and not a key
    of the running map it calls [start_server name]; if that fails with
    [msg] the switch fails with "Failed to start [name]: [msg]" and the
    pointer is as before; if it succeeds the pointer is set to [name].
    When [name] is configured and a key of the running map, whether its
    process is alive or not, the pointer is set to [name] and nothing is
    started: manager and system are otherwise unchanged.  After every
    switch that succeeds [name] is a key of the running map. *)
Theorem switch_server_cases name self w :
  (config_servers self !! name = None →
   switch_server name self w =
     ((false, "Server " +:+ name +:+ " not found"), self, w)) ∧
  (∀ msg self' w',
     is_Some (config_servers self !! name) →
     active_servers self !! name = None →
     start_server name self w = ((false, msg), self', w') →
     switch_server name self w =
       ((false, "Failed to start " +:+ name +:+ ": " +:+ msg), self', w') ∧
     current_server self' = current_server self) ∧
  (∀ msg self' w',
     is_Some (config_servers self !! name) →
     active_servers self !! name = None →
     start_server name self w = ((true, msg), self', w') →
     switch_server name self w =
       ((true, "Switched to " +:+ name),
        set_current_server (Some name) self', w') ∧
     current_server (switch_server name self w).1.2 = Some name ∧
     is_Some (active_servers (switch_server name self w).1.2 !! name)) ∧
  (is_Some (config_servers self !! name) →
   is_Some (active_servers self !! name) →
   switch_server name self w =
     ((true, "Switched to " +:+ name),
      set_current_server (Some name) self, w) ∧
   current_server (switch_server name self w).1.2 = Some name ∧
   active_servers (switch_server name self w).1.2 = active_servers self ∧
   is_Some (active_servers (switch_server name self w).1.2 !! name)).
Proof.
  unfold switch_server. split; [|split; [|split]].
  - by intros ->.
  - intros msg self' w' [cfg ->] Hout Hstart. rewrite Hout, Hstart.
    split; [done|].
    pose proof (start_server_current name self w) as Hcur.
    by rewrite Hstart in Hcur.
  - intros msg self' w' [cfg ->] Hout Hstart.
    pose proof (start_server_registers name self w) as Hreg.
    rewrite Hout, Hstart. rewrite Hstart in Hreg. simpl in *. auto.
  - intros [cfg ->] [info Hin]. rewrite Hin. simpl. rewrite Hin. eauto.
Qed.

(** [start_server "Custom"] fails in [Sample.cfg]: the name is configured
    but has no command.  The successful switches start from a pointer that
    does not hold the target. *)
Lemma switch_server_cases_witness :
  switch_server "unknown" Sample.manager (Sample.quiet Sample.dead) =
    ((false, "Server unknown not found"), Sample.manager,
     Sample.quiet Sample.dead) ∧
  switch_server "Custom" Sample.manager (Sample.quiet Sample.dead) =
    ((false, "Failed to start Custom: Unknown server: Custom"),
     Sample.manager, Sample.quiet Sample.dead) ∧
  (current_server
     (switch_server "SecureAudit"
        (set_current_server (Some "Custom") (__init__ (Some Sample.cfg)))
        (Sample.quiet Sample.dead)).1.2 = Some "SecureAudit" ∧
   is_Some
     (active_servers
        (switch_server "SecureAudit"
           (set_current_server (Some "Custom") (__init__ (Some Sample.cfg)))
           (Sample.quiet Sample.dead)).1.2 !! "SecureAudit")) ∧
  current_server
    (switch_server "SecureAudit" Sample.unpointed
       (Sample.quiet Sample.obedient)).1.2 = Some "SecureAudit".
Proof.
  split; [|split; [|split]].
  - apply (switch_server_cases "unknown" Sample.manager
             (Sample.quiet Sample.dead)).
    reflexivity.
  - refine (proj1 (proj1 (proj2 (switch_server_cases "Custom" Sample.manager
              (Sample.quiet Sample.dead))) "Unknown server: Custom" _ _ _ _ _)).
    + by eexists.
    + reflexivity.
    + reflexivity.
  - refine (proj2 (proj1 (proj2 (proj2 (switch_server_cases "SecureAudit"
              (set_current_server (Some "Custom") (__init__ (Some Sample.cfg)))
              (Sample.quiet Sample.dead))))
              _ _ _ _ _ _)).
    + by eexists.
    + reflexivity.
    + reflexivity.
  - refine (proj1 (proj2 (proj2 (proj2 (proj2 (switch_server_cases
              "SecureAudit" Sample.unpointed
              (Sample.quiet Sample.obedient)))) _ _))).
    + by eexists.
    + by eexists.
Defined.

(** ** The command of a worker *)

Lemma server_commands_dom cfg table :
  server_commands cfg = inr table → dom table = table_names.
Proof.
  unfold server_commands.
  destruct (cfg !! "host") as [host|]; [|done].
  destruct (cfg !! "port") as [port|]; [|done].
  intros [= <-]. rewrite !dom_insert_L, dom_empty_L.
  unfold table_names. set_solver.
Qed.






(** A configuration entry without a host makes the start fail while the
    table is being built, for a worker that needs none as well. *)
Example start_server_missing_host :
  let stdio : gmap string jval := <["transport" := JStr "stdio"]> ∅ in
  let self :=
    __init__ (Some (mk_config (Some (<["SecureAudit" := stdio]> ∅)) None)) in
  start_server "SecureAudit" self (Sample.quiet Sample.dead) =
    ((false, "Failed to start server: 'host'"), self,
     Sample.quiet Sample.dead).
Proof. reflexivity. Qed.

(** ** Tool calls *)


Lemma call_tool_ignores_workers tool kwargs self w f :
  (call_tool tool kwargs self (set_worker_reply f w)).1 =
    (call_tool tool kwargs self w).1.
Proof.
  unfold call_tool. destruct (negb _); [done|]. simpl.
  destruct (run_script w tool kwargs); [|done]. by case_decide.
Qed.

(** A successful call carries a sentence made from the name of the tool. *)
Lemma call_tool_success_result tool kwargs self w t r a ts :
  (call_tool tool kwargs self w).1 = ToolSuccess t r a ts →
  r = "Tool " +:+ tool +:+ " called successfully".
Proof.
  unfold call_tool. destruct (negb _); [done|]. simpl.
  destruct (run_script w tool kwargs); [|done].
  case_decide; [|done]. by intros [= _ <- _ _].
Qed.

(** C3 at a failing input: ["SecureAudit"] is active and running, its
    worker answers ["hi"] to the request, and [call_tool "echo"] with the
    message ["hi"] succeeds with the result "Tool echo called successfully";
    the same comes back whatever the worker would answer. *)
Theorem call_tool_result_is_synthesized :
  worker_reply (Sample.quiet Sample.obedient) 7 "echo" Sample.hi = JStr "hi" ∧
  (call_tool "echo" Sample.hi Sample.manager
     (Sample.quiet Sample.obedient)).1 =
    ToolSuccess "echo" "Tool echo called successfully" Sample.hi 1000 ∧
  ∀ reply,
    (call_tool "echo" Sample.hi Sample.manager
       (set_worker_reply reply (Sample.quiet Sample.obedient))).1 =
      ToolSuccess "echo" "Tool echo called successfully" Sample.hi 1000.
Proof.
  split; [reflexivity|]. split; [reflexivity|].
  intros reply. by rewrite call_tool_ignores_workers.
Qed.




(** ** What each operation does to the registry *)

Lemma get_server_status_subseteq n self w :
  active_servers (get_server_status n self w).2 ⊆ active_servers self.
Proof.
  unfold get_server_status.
  destruct (active_servers self !! n) as [info|]; [|done].
  destruct (poll w (process info)); [|done].
  apply delete_subseteq.
Qed.

Lemma get_server_status_other n m self w :
  m ≠ n →
  active_servers (get_server_status n self w).2 !! m =
    active_servers self !! m.
Proof.
  intros Hne. unfold get_server_status.
  destruct (active_servers self !! n) as [info|]; [|done].
  destruct (poll w (process info)); [|done].
  simpl. by rewrite lookup_delete_ne.
Qed.

(** The answer about [n] depends on the entry of [n] alone. *)
Lemma get_server_status_local n self1 self2 w :
  active_servers self1 !! n = active_servers self2 !! n →
  (get_server_status n self1 w).1 = (get_server_status n self2 w).1 ∧
  active_servers (get_server_status n self1 w).2 !! n =
    active_servers (get_server_status n self2 w).2 !! n.
Proof.
  intros Heq. unfold get_server_status. rewrite Heq.
  destruct (active_servers self2 !! n) as [info|] eqn:Hn; simpl;
    [|by rewrite Heq, Hn].
  destruct (poll w (process info)); simpl; [|by rewrite Heq, Hn].
  by rewrite !lookup_delete_eq.
Qed.

Lemma server_commands_lookup cfg table n cmd :
  server_commands cfg = inr table → table !! n = Some cmd → n ∈ table_names.
Proof.
  intros Htab Hn. rewrite <- (server_commands_dom cfg table Htab).
  apply elem_of_dom. eauto.
Qed.

Lemma start_server_launch_shape name self w :
  config (start_server_launch name self w).1.2 = config self ∧
  if (start_server_launch name self w).1.1.1 then
    ∃ cfg,
      name ∈ table_names ∧
      config_servers self !! name = Some cfg ∧
      active_servers (start_server_launch name self w).1.2 =
        <[name := mk_info (next_pid w) (now w) (now w) cfg]>
          (active_servers self) ∧
      next_pid (start_server_launch name self w).2 = next_pid w + 1
  else
    active_servers (start_server_launch name self w).1.2 =
      active_servers self ∧
    next_pid (start_server_launch name self w).2 = next_pid w.
Proof.
  unfold start_server_launch, get_server_config.
  destruct (config_servers self !! name) as [cfg|] eqn:Hcfg; [|done].
  case_decide; [done|].
  destruct (server_commands cfg) as [e|table] eqn:Htab; [done|].
  destruct (table !! name) as [cmd|] eqn:Hcmd; [|done].
  unfold popen. destruct (spawn w cmd) as [e|p]; [done|].
  simpl. split; [done|]. exists cfg.
  split; [by eapply server_commands_lookup|]. done.
Qed.

Lemma start_server_shape name self w :
  config (start_server name self w).1.2 = config self ∧
  if (start_server name self w).1.1.1 then
    ∃ cfg base,
      name ∈ table_names ∧
      config_servers self !! name = Some cfg ∧
      base ⊆ active_servers self ∧
      active_servers (start_server name self w).1.2 =
        <[name := mk_info (next_pid w) (now w) (now w) cfg]> base ∧
      next_pid (start_server name self w).2 = next_pid w + 1
  else
    active_servers (start_server name self w).1.2 ⊆ active_servers self ∧
    next_pid (start_server name self w).2 = next_pid w.
Proof.
  unfold start_server.
  destruct (active_servers self !! name) as [info|] eqn:Hin.
  - pose proof (get_server_status_subseteq name self w) as Hsub.
    pose proof (get_server_status_config name self w) as Hc.
    destruct (get_server_status name self w) as [st self1]. simpl in *.
    destruct (running st); [done|].
    destruct (start_server_launch_shape name self1 w) as [Hc' Hrun].
    split; [congruence|].
    destruct ((start_server_launch name self1 w).1.1.1).
    + destruct Hrun as (cfg & Ht & Hcfg & Hact & Hpid).
      exists cfg, (active_servers self1). repeat split; try done.
      unfold config_servers in *. by rewrite <- Hc.
    + destruct Hrun as [-> ->]. done.
  - destruct (start_server_launch_shape name self w) as [Hc' Hrun].
    split; [done|].
    destruct ((start_server_launch name self w).1.1.1).
    + destruct Hrun as (cfg & Ht & Hcfg & Hact & Hpid).
      by exists cfg, (active_servers self).
    + destruct Hrun as [-> ->]. done.
Qed.

Lemma stop_server_shape name self w :
  config (stop_server name self w).1.2 = config self ∧
  active_servers (stop_server name self w).1.2 ⊆ active_servers self ∧
  next_pid (stop_server name self w).2 = next_pid w.
Proof.
  unfold stop_server.
  destruct (active_servers self !! name) as [info|]; [|done].
  unfold terminate, wait_timeout, kill_and_wait, poll.
  destruct (exit_status (procs w (process info))) eqn:He; simpl.
  { rewrite He. simpl. split; [done|]. split; [apply delete_subseteq|done]. }
  destruct (signal_error (procs w (process info))); [done|].
  destruct (on_sigterm (procs w (process info))) eqn:Ht; simpl.
  - rewrite fn_lookup_insert. simpl.
    split; [done|]. split; [apply delete_subseteq|done].
  - rewrite He. simpl. rewrite He.
    split; [done|]. split; [apply delete_subseteq|done].
Qed.

Lemma list_servers_loop_shape items : ∀ acc self w,
  config (list_servers_loop items acc self w).2 = config self ∧
  current_server (list_servers_loop items acc self w).2 =
    current_server self ∧
  active_servers (list_servers_loop items acc self w).2 ⊆
    active_servers self.
Proof.
  induction items as [|[name cfg] rest IH]; intros acc self w; [done|].
  simpl.
  pose proof (get_server_status_subseteq name self w) as Hsub.
  pose proof (get_server_status_config name self w) as Hc.
  pose proof (get_server_status_current name self w) as Hp.
  destruct (get_server_status name self w) as [st self1]. simpl in *.
  destruct (IH (<[name := mk_row cfg st
                            (bool_decide (Some name = current_server self1))]>
                  acc) self1 w) as (Hc' & Hp' & Hsub').
  split; [congruence|]. split; [congruence|]. by etrans.
Qed.

Lemma call_tool_next_pid tool kwargs self w :
  next_pid (call_tool tool kwargs self w).2 = next_pid w ∧
  procs (call_tool tool kwargs self w).2 = procs w.
Proof.
  unfold call_tool. destruct (negb _); [done|].
  destruct (run_script w tool kwargs); [|done]. by case_decide.
Qed.

(** ** The registry in every history *)

Lemma registry_ok_shrink file self w self' w' :
  config self' = config self →
  active_servers self' ⊆ active_servers self →
  current_server self' = current_server self →
  (next_pid w ≤ next_pid w')%Z →
  registry_ok file self w → registry_ok file self' w'.
Proof.
  intros Hc Hsub Hp Hpid [Hcfg Hentry Hdist Hptr].
  assert (config_servers self' = config_servers self) as Hcs
    by (unfold config_servers; by rewrite Hc).
  split.
  - congruence.
  - intros name info Hin.
    eapply lookup_weaken in Hin; [|exact Hsub].
    destruct (Hentry name info Hin) as (? & ? & ?).
    rewrite Hcs. repeat split; try done. lia.
  - intros n1 n2 i1 i2 H1 H2.
    eapply lookup_weaken in H1; [|exact Hsub].
    eapply lookup_weaken in H2; [|exact Hsub]. eauto.
  - rewrite Hp, Hcs. done.
Qed.

Lemma registry_ok_start file name self w :
  registry_ok file self w →
  registry_ok file (start_server name self w).1.2 (start_server name self w).2.
Proof.
  intros Hok.
  destruct (start_server_shape name self w) as [Hc Hrun].
  pose proof (start_server_current name self w) as Hp.
  destruct ((start_server name self w).1.1.1); cycle 1.
  { destruct Hrun as [Hsub Hpid].
    eapply registry_ok_shrink; eauto. lia. }
  destruct Hrun as (cfg & base & Ht & Hcfg & Hsub & Hact & Hpid).
  destruct Hok as [Hcfg0 Hentry Hdist Hptr].
  assert (config_servers (start_server name self w).1.2 = config_servers self)
    as Hcs by (unfold config_servers; by rewrite Hc).
  assert (∀ n i, base !! n = Some i → process i < next_pid w) as Hold.
  { intros n i Hn. eapply lookup_weaken in Hn; [|exact Hsub].
    by destruct (Hentry n i Hn) as (_ & _ & ?). }
  split.
  - congruence.
  - intros n info. rewrite Hact, Hcs, Hpid.
    destruct (decide (n = name)) as [->|Hne].
    + rewrite lookup_insert_eq. intros [= <-]. simpl.
      repeat split; try done. lia.
    + rewrite lookup_insert_ne; [|done]. intros Hn.
      eapply lookup_weaken in Hn; [|exact Hsub].
      destruct (Hentry n info Hn) as (? & ? & ?). repeat split; try done. lia.
  - intros n1 n2 i1 i2. rewrite Hact.
    destruct (decide (n1 = name)) as [->|Hne1];
      destruct (decide (n2 = name)) as [->|Hne2]; try done.
    + rewrite lookup_insert_eq, lookup_insert_ne; [|done].
      intros [= <-] H2 Heq. simpl in Heq. apply Hold in H2. lia.
    + rewrite lookup_insert_eq, lookup_insert_ne; [|done].
      intros H1 [= <-] Heq. simpl in Heq. apply Hold in H1. lia.
    + rewrite !lookup_insert_ne; [|done..]. intros H1 H2.
      eapply lookup_weaken in H1; [|exact Hsub].
      eapply lookup_weaken in H2; [|exact Hsub]. eauto.
  - rewrite Hp, Hcs. done.
Qed.

Lemma registry_ok_switch file name self w :
  registry_ok file self w →
  registry_ok file (switch_server name self w).1.2
    (switch_server name self w).2.
Proof.
  intros Hok. unfold switch_server.
  destruct (config_servers self !! name) as [cfg|] eqn:Hcfg; [|done].
  assert (∀ self', config self' = config self →
            is_Some (config_servers self' !! name)) as Hconf.
  { intros self' Hc. unfold config_servers in *. rewrite Hc, Hcfg. eauto. }
  destruct (active_servers self !! name) as [info|] eqn:Hin.
  - destruct Hok as [H1 H2 H3 H4]. split; try done.
    right. exists name. split; [done|]. by apply Hconf.
  - pose proof (registry_ok_start file name self w Hok) as Hok'.
    destruct (start_server_shape name self w) as [Hc _].
    destruct (start_server name self w) as [[[ok msg] self'] w'].
    simpl in *. destruct ok; simpl; [|done].
    destruct Hok' as [H1 H2 H3 H4]. split; try done.
    right. exists name. split; [done|]. by apply Hconf.
Qed.

Lemma registry_ok_init file w : registry_ok file (__init__ file) w.
Proof.
  split; try done. by left.
Qed.

Lemma exits_outside_next_pid pid code w :
  next_pid (exits_outside pid code w) = next_pid w.
Proof. unfold exits_outside. by destruct (exit_status (procs w pid)). Qed.

Lemma registry_ok_step file e self w :
  registry_ok file self w →
  registry_ok file (step (self, w) e).1 (step (self, w) e).2.
Proof.
  intros Hok. destruct e as [n|items|n|n|n|tool kwargs|pid code]; simpl.
  - eapply registry_ok_shrink; [..|exact Hok].
    + apply get_server_status_config.
    + apply get_server_status_subseteq.
    + apply get_server_status_current.
    + lia.
  - destruct (list_servers_loop_shape items ∅ self w) as (Hc & Hp & Hsub).
    eapply registry_ok_shrink; [..|exact Hok]; try done; lia.
  - pose proof (registry_ok_start file n self w Hok) as Hok'.
    by destruct (start_server n self w) as [[res self'] w'].
  - destruct (stop_server_shape n self w) as (Hc & Hsub & Hpid).
    pose proof (stop_server_current n self w) as Hp.
    destruct (stop_server n self w) as [[res self'] w']. simpl in *.
    eapply registry_ok_shrink; [..|exact Hok]; try done; lia.
  - pose proof (registry_ok_switch file n self w Hok) as Hok'.
    by destruct (switch_server n self w) as [[res self'] w'].
  - destruct (call_tool_next_pid tool kwargs self w) as [Hpid _].
    eapply registry_ok_shrink; [..|exact Hok]; try done; lia.
  - eapply registry_ok_shrink; [..|exact Hok]; try done.
    rewrite exits_outside_next_pid. lia.
Qed.

Lemma registry_ok_run file es : ∀ self w,
  registry_ok file self w →
  registry_ok file (run es (self, w)).1 (run es (self, w)).2.
Proof.
  induction es as [|e es IH]; intros self w Hok; [done|].
  change (run (e :: es) (self, w)) with (run es (step (self, w) e)).
  pose proof (registry_ok_step file e self w Hok) as Hstep.
  destruct (step (self, w) e) as [self' w']. by apply IH.
Qed.

(** X1.  Whatever is done to a manager after its creation (status queries,
    listings, starts, stops, switches, tool calls, processes ending on their
    own), a name is registered as running only if it is one of the four
    names of the literal table and a key of the loaded configuration, and
    its entry stores that configuration entry. *)
Theorem registered_names_known_and_configured file w0 es name info :
  active_servers (run es (__init__ file, w0)).1 !! name = Some info →
  name ∈ table_names ∧
  servers (_load_config file) ≫= (.!! name) = Some (info_config info).
Proof.
  intros Hin.
  destruct (registry_ok_run file es _ w0 (registry_ok_init file w0))
    as [Hc Hentry _ _].
  destruct (Hentry name info Hin) as (Ht & Hcfg & _).
  split; [done|]. revert Hcfg. unfold config_servers. rewrite Hc.
  destruct (servers (_load_config file)); simpl; [done|].
  by rewrite lookup_empty.
Qed.

Lemma registered_names_known_and_configured_witness :
  "SecureAudit" ∈ table_names ∧
  servers (_load_config (Some Sample.cfg)) ≫= (.!! "SecureAudit") =
    Some Sample.net.
Proof.
  apply (registered_names_known_and_configured (Some Sample.cfg)
           (Sample.quiet Sample.dead)
           [EStart "Custom"; EStart "SecureAudit"; ECall "echo" Sample.hi]
           "SecureAudit" (mk_info 100 1000 1000 Sample.net)).
  reflexivity.
Defined.

(** X2.  In every history of a manager, two different registered names
    never hold the same process: every entry of the running map holds the
    handle made by its own [Popen]. *)
Theorem registered_processes_distinct file w0 es n1 n2 i1 i2 :
  active_servers (run es (__init__ file, w0)).1 !! n1 = Some i1 →
  active_servers (run es (__init__ file, w0)).1 !! n2 = Some i2 →
  n1 ≠ n2 →
  process i1 ≠ process i2.
Proof.
  intros H1 H2 Hne.
  destruct (registry_ok_run file es _ w0 (registry_ok_init file w0))
    as [_ _ Hdist _].
  intros Heq. by eapply Hne, Hdist.
Qed.

Lemma registered_processes_distinct_witness : (100 : Z) ≠ 101.
Proof.
  pose (cfg2 := mk_config
          (Some (<["SecureAudit" := Sample.net]>
                 (<["SampleServer" := Sample.net]> ∅))) None).
  apply (registered_processes_distinct (Some cfg2) (Sample.quiet Sample.dead)
           [EStart "SecureAudit"; EStart "SampleServer"]
           "SecureAudit" "SampleServer"
           (mk_info 100 1000 1000 Sample.net)
           (mk_info 101 1000 1000 Sample.net)); [reflexivity..|done].
Defined.

(** X3.  In every history of a manager the active pointer is either the
    value it was created with or a key of the configured servers: no
    operation points it at a name the configuration does not know, and none
    resets it to [None]. *)
Theorem pointer_default_or_configured file w0 es :
  current_server (run es (__init__ file, w0)).1 =
    default (Some "SecureAudit") (default_server (_load_config file)) ∨
  ∃ name cfg,
    current_server (run es (__init__ file, w0)).1 = Some name ∧
    servers (_load_config file) ≫= (.!! name) = Some cfg.
Proof.
  destruct (registry_ok_run file es _ w0 (registry_ok_init file w0))
    as [Hc _ _ [Hp|(name & Hp & [cfg Hcfg])]]; [by left|].
  right. exists name, cfg. split; [done|].
  revert Hcfg. unfold config_servers. rewrite Hc.
  destruct (servers (_load_config file)); simpl; [done|].
  by rewrite lookup_empty.
Qed.

(** Without a configured server nothing changes the registry. *)
Lemma unconfigured_step e self w :
  config_servers self = ∅ →
  active_servers self = ∅ →
  config (step (self, w) e).1 = config self ∧
  active_servers (step (self, w) e).1 = ∅ ∧
  next_pid (step (self, w) e).2 = next_pid w.
Proof.
  intros Hcfg Hact.
  destruct e as [n|items|n|n|n|tool kwargs|pid code]; simpl.
  - unfold get_server_status. by rewrite Hact, lookup_empty.
  - destruct (list_servers_loop_shape items ∅ self w) as (Hc & _ & Hsub).
    split; [done|]. split; [|done].
    apply map_eq. intros i. rewrite lookup_empty.
    destruct (active_servers (list_servers items self w).2 !! i) eqn:Hi;
      [|done].
    eapply lookup_weaken in Hi; [|exact Hsub].
    by rewrite Hact, lookup_empty in Hi.
  - unfold start_server, start_server_launch, get_server_config.
    by rewrite Hact, Hcfg, !lookup_empty.
  - unfold stop_server. by rewrite Hact, lookup_empty.
  - unfold switch_server. by rewrite Hcfg, lookup_empty.
  - by destruct (call_tool_next_pid tool kwargs self w) as [-> _].
  - by rewrite exits_outside_next_pid.
Qed.

Lemma unconfigured_run es : ∀ self w,
  config_servers self = ∅ →
  active_servers self = ∅ →
  config_servers (run es (self, w)).1 = ∅ ∧
  active_servers (run es (self, w)).1 = ∅ ∧
  next_pid (run es (self, w)).2 = next_pid w.
Proof.
  induction es as [|e es IH]; intros self w Hcfg Hact; [done|].
  change (run (e :: es) (self, w)) with (run es (step (self, w) e)).
  destruct (unconfigured_step e self w Hcfg Hact) as (Hc & Ha & Hp).
  destruct (step (self, w) e) as [self' w']. simpl in *.
  destruct (IH self' w') as (? & ? & ?); [|done|].
  { unfold config_servers in *. by rewrite Hc. }
  repeat split; try done. congruence.
Qed.

(** X4.  When the configuration file cannot be read, or lists no servers,
    nothing is ever registered and no process is ever spawned, whatever is
    tried and in whatever order: every start fails with "not found in
    configuration" and every switch with "not found". *)
Theorem nothing_runs_without_configuration file w0 es :
  default ∅ (servers (_load_config file)) = ∅ →
  active_servers (run es (__init__ file, w0)).1 = ∅ ∧
  next_pid (run es (__init__ file, w0)).2 = next_pid w0 ∧
  ∀ name,
    (start_server name (run es (__init__ file, w0)).1
       (run es (__init__ file, w0)).2).1.1 =
      (false, "Server " +:+ name +:+ " not found in configuration") ∧
    (switch_server name (run es (__init__ file, w0)).1
       (run es (__init__ file, w0)).2).1.1 =
      (false, "Server " +:+ name +:+ " not found").
Proof.
  intros Hnone.
  destruct (unconfigured_run es (__init__ file) w0) as (Hc & Ha & Hp);
    [done..|].
  split; [done|]. split; [done|]. intros name.
  unfold start_server, start_server_launch, get_server_config, switch_server.
  by rewrite Ha, Hc, !lookup_empty.
Qed.

Lemma nothing_runs_without_configuration_witness :
  active_servers
    (run [ESwitch "SecureAudit"; EStart "SecureAudit"]
       (__init__ None, Sample.quiet Sample.dead)).1 = ∅.
Proof.
  apply (nothing_runs_without_configuration None (Sample.quiet Sample.dead)
           [ESwitch "SecureAudit"; EStart "SecureAudit"]).
  reflexivity.
Defined.

(** ** Starting, querying and stopping in sequence *)

(** X5.  A start that succeeds, followed by a status query for the same
    name on the manager it left, in whatever state [w2] the system is by
    then: if the new child is still alive the answer is "running", with the
    process id handed out by the start, the start time read at the start and
    as uptime the time that has passed since, and the registry is left as
    the start made it; if the child has ended with [code] the answer is
    "ended" with that code and the name is unregistered again. *)
Theorem start_then_status name self w w2 :
  (start_server name self w).1.1.1 = true →
  let self' := (start_server name self w).1.2 in
  match poll w2 (next_pid w) with
  | None =>
      get_server_status name self' w2 =
        (StatusRunning (next_pid w) (now w) (now w2 - now w), self')
  | Some code =>
      (get_server_status name self' w2).1 = StatusEnded code (now w2) ∧
      active_servers (get_server_status name self' w2).2 !! name = None
  end.
Proof.
  intros Hok. simpl.
  destruct (start_server_shape name self w) as [_ Hrun].
  rewrite Hok in Hrun.
  destruct Hrun as (cfg & base & _ & _ & _ & Hact & _).
  unfold get_server_status. rewrite Hact, lookup_insert_eq. simpl.
  destruct (poll w2 (next_pid w)) as [code|]; [|done].
  simpl. split; [done|]. apply lookup_delete_eq.
Qed.

(** The clock reads 1000 at the start and 1042 at the query. *)
Lemma start_then_status_witness :
  get_server_status "SecureAudit"
    (start_server "SecureAudit" (__init__ (Some Sample.cfg))
       (Sample.quiet Sample.dead)).1.2
    (mk_world (λ _, Sample.obedient) 101 1042 (λ _, inr Sample.obedient)
       (λ _ _, ScriptExit 0 "") (λ _ _ _, JStr "hi") []) =
    (StatusRunning 100 1000 42,
     (start_server "SecureAudit" (__init__ (Some Sample.cfg))
        (Sample.quiet Sample.dead)).1.2).
Proof.
  apply (start_then_status "SecureAudit" (__init__ (Some Sample.cfg))
           (Sample.quiet Sample.dead)
           (mk_world (λ _, Sample.obedient) 101 1042
              (λ _, inr Sample.obedient) (λ _ _, ScriptExit 0 "")
              (λ _ _ _, JStr "hi") [])).
  reflexivity.
Defined.

(** X6.  An entry whose process has ended does not block a start: the
    start drops the dead entry and goes on exactly as a start of the same
    name in the registry without it. *)
Theorem start_server_over_dead_entry name self w info code :
  active_servers self !! name = Some info →
  poll w (process info) = Some code →
  start_server name self w =
    start_server name
      (set_active_servers (delete name (active_servers self)) self) w.
Proof.
  intros Hin Hdead. unfold start_server at 1 2, get_server_status.
  rewrite Hin, Hdead. simpl. by rewrite lookup_delete_eq.
Qed.

Lemma start_server_over_dead_entry_witness :
  start_server "SecureAudit" Sample.manager (Sample.quiet Sample.dead) =
    start_server "SecureAudit"
      (set_active_servers (delete "SecureAudit" (active_servers Sample.manager))
         Sample.manager) (Sample.quiet Sample.dead).
Proof.
  apply (start_server_over_dead_entry "SecureAudit" Sample.manager
           (Sample.quiet Sample.dead) Sample.entry 1); reflexivity.
Defined.

(** X7.  A configuration entry that is not empty but has no ["host"] (or a
    host and no ["port"]) makes every start of that name fail with the text
    of the [KeyError], before anything is spawned or registered; this holds
    for the two standard-input workers too, whose commands use neither. *)
Theorem start_server_needs_host_and_port name self w cfg :
  active_servers self !! name = None →
  get_server_config name self = Some cfg →
  cfg ≠ ∅ →
  (cfg !! "host" = None →
   start_server name self w =
     ((false, "Failed to start server: 'host'"), self, w)) ∧
  (is_Some (cfg !! "host") → cfg !! "port" = None →
   start_server name self w =
     ((false, "Failed to start server: 'port'"), self, w)).
Proof.
  intros Hout Hcfg Hne.
  unfold start_server, start_server_launch, server_commands.
  rewrite Hout, Hcfg. rewrite decide_False; [|done].
  split.
  - by intros ->.
  - by intros [host ->] ->.
Qed.

Lemma start_server_needs_host_and_port_witness :
  start_server "SecureAudit"
    (__init__ (Some (mk_config
       (Some (<["SecureAudit" := <["transport" := JStr "stdio"]> ∅]> ∅))
       None)))
    (Sample.quiet Sample.dead) =
    ((false, "Failed to start server: 'host'"),
     __init__ (Some (mk_config
       (Some (<["SecureAudit" := <["transport" := JStr "stdio"]> ∅]> ∅))
       None)),
     Sample.quiet Sample.dead) ∧
  start_server "SecureAudit"
    (__init__ (Some (mk_config
       (Some (<["SecureAudit" := <["host" := JStr "localhost"]> ∅]> ∅))
       None)))
    (Sample.quiet Sample.dead) =
    ((false, "Failed to start server: 'port'"),
     __init__ (Some (mk_config
       (Some (<["SecureAudit" := <["host" := JStr "localhost"]> ∅]> ∅))
       None)),
     Sample.quiet Sample.dead).
Proof.
  split.
  - apply (start_server_needs_host_and_port "SecureAudit" _
             (Sample.quiet Sample.dead) (<["transport" := JStr "stdio"]> ∅));
      [reflexivity | reflexivity | | reflexivity].
    intros Heq.
    apply (f_equal (λ m : gmap string jval, m !! "transport")) in Heq.
    discriminate Heq.
  - apply (start_server_needs_host_and_port "SecureAudit" _
             (Sample.quiet Sample.dead) (<["host" := JStr "localhost"]> ∅));
      [reflexivity | reflexivity | | by eexists | reflexivity].
    intros Heq.
    apply (f_equal (λ m : gmap string jval, m !! "host")) in Heq.
    discriminate Heq.
Defined.

(** X8.  The exit code of a worker is reported once: after the status query
    that finds the process ended, a further query for the name, at any
    later time, answers plainly "not running" and changes nothing. *)
Theorem status_after_reap name self w info code w2 :
  active_servers self !! name = Some info →
  poll w (process info) = Some code →
  get_server_status name (get_server_status name self w).2 w2 =
    (StatusAbsent, (get_server_status name self w).2).
Proof.
  intros Hin Hdead. unfold get_server_status at 2 3.
  rewrite Hin, Hdead. simpl. unfold get_server_status. simpl.
  by rewrite lookup_delete_eq.
Qed.

Lemma status_after_reap_witness :
  get_server_status "SecureAudit"
    (get_server_status "SecureAudit" Sample.manager
       (Sample.quiet Sample.dead)).2 (Sample.quiet Sample.obedient) =
    (StatusAbsent,
     (get_server_status "SecureAudit" Sample.manager
        (Sample.quiet Sample.dead)).2).
Proof.
  apply (status_after_reap "SecureAudit" Sample.manager
           (Sample.quiet Sample.dead) Sample.entry 1); reflexivity.
Defined.

(** ** Stopping one worker, and all of them *)

(** What [stop_server] does to the table of processes: nothing, or it ends
    the one process registered under the name. *)
Lemma stop_server_procs name self w :
  procs (stop_server name self w).2 = procs w ∨
  ∃ info code,
    active_servers self !! name = Some info ∧
    exit_status (procs w (process info)) = None ∧
    procs (stop_server name self w).2 =
      <[process info := exited_with code (procs w (process info))]> (procs w).
Proof.
  unfold stop_server.
  destruct (active_servers self !! name) as [info|] eqn:Hin; [|by left].
  unfold terminate, wait_timeout, kill_and_wait, poll.
  destruct (exit_status (procs w (process info))) eqn:He; simpl.
  { rewrite He. by left. }
  destruct (signal_error (procs w (process info))); [by left|].
  destruct (on_sigterm (procs w (process info))) as [c|] eqn:Ht; simpl.
  - rewrite fn_lookup_insert. simpl. right. by exists info, c.
  - rewrite He. simpl. rewrite He. right. by exists info, (-9).
Qed.

Lemma stop_server_proc_mono name self w pid :
  signal_error (procs (stop_server name self w).2 pid) =
    signal_error (procs w pid) ∧
  (is_Some (exit_status (procs w pid)) →
   procs (stop_server name self w).2 pid = procs w pid).
Proof.
  destruct (stop_server_procs name self w)
    as [->|(info & code & _ & He & ->)]; [done|].
  destruct (decide (pid = process info)) as [->|Hne].
  - rewrite fn_lookup_insert. simpl. split; [done|].
    rewrite He. by intros [? ?].
  - by rewrite fn_lookup_insert_ne.
Qed.

(** X9.  Stopping one worker touches nothing else: every entry under
    another name is kept as it is, every process other than the one
    registered under the stopped name is left in the state it was in, the
    pointer and the configuration are kept and no process id is handed out. *)
Theorem stop_server_leaves_the_rest name self w :
  (∀ other, other ≠ name →
     active_servers (stop_server name self w).1.2 !! other =
       active_servers self !! other) ∧
  (∀ pid,
     (∀ info, active_servers self !! name = Some info → pid ≠ process info) →
     procs (stop_server name self w).2 pid = procs w pid) ∧
  current_server (stop_server name self w).1.2 = current_server self ∧
  config (stop_server name self w).1.2 = config self ∧
  next_pid (stop_server name self w).2 = next_pid w.
Proof.
  destruct (stop_server_shape name self w) as (Hc & _ & Hpid).
  split; [|split; [|split; [apply stop_server_current|done]]].
  - intros other Hne. unfold stop_server.
    destruct (active_servers self !! name) as [info|]; [|done].
    destruct (terminate (process info) w); [done|].
    simpl. by rewrite lookup_delete_ne.
  - intros pid Hpid'.
    destruct (stop_server_procs name self w)
      as [->|(info & code & Hin & _ & ->)]; [done|].
    rewrite fn_lookup_insert_ne; [done|]. intros <-. by eapply Hpid'.
Qed.

Lemma stop_server_leaves_the_rest_witness :
  procs (stop_server "SecureAudit" Sample.manager
           (Sample.quiet Sample.obedient)).2 8 = Sample.obedient.
Proof.
  apply (stop_server_leaves_the_rest "SecureAudit" Sample.manager
           (Sample.quiet Sample.obedient)).
  intros info [= <-]. done.
Defined.

Lemma stop_all_shape names : ∀ self w,
  current_server (stop_all names self w).1 = current_server self ∧
  ∀ pid,
    is_Some (exit_status (procs w pid)) →
    is_Some (exit_status (procs (stop_all names self w).2 pid)).
Proof.
  induction names as [|n rest IH]; intros self w; [done|].
  simpl.
  pose proof (stop_server_current n self w) as Hp.
  pose proof (stop_server_proc_mono n self w) as Hmono.
  destruct (stop_server n self w) as [[res self1] w1]. simpl in *.
  destruct (IH self1 w1) as [Hp' Hmono']. split; [congruence|].
  intros pid Hended. apply Hmono'.
  destruct (Hmono pid) as [_ Heq]. by rewrite Heq.
Qed.

Lemma stop_all_registry names : ∀ self w,
  (∀ n info,
     active_servers self !! n = Some info →
     is_Some (exit_status (procs w (process info))) ∨
     signal_error (procs w (process info)) = None) →
  (∀ n, active_servers (stop_all names self w).1 !! n =
          if decide (n ∈ names) then None else active_servers self !! n) ∧
  (∀ n info,
     n ∈ names → active_servers self !! n = Some info →
     is_Some (poll (stop_all names self w).2 (process info))).
Proof.
  induction names as [|k rest IH]; intros self w Hsig.
  { split; [done|]. intros n info Hn. by apply elem_of_nil in Hn. }
  simpl.
  pose proof (stop_server_proc_mono k self w) as Hmono.
  assert (∀ n info,
     active_servers (stop_server k self w).1.2 !! n = Some info →
     is_Some (exit_status (procs (stop_server k self w).2 (process info))) ∨
     signal_error (procs (stop_server k self w).2 (process info)) = None)
    as Hsig'.
  { intros n info Hn.
    destruct (stop_server_shape k self w) as (_ & Hsub & _).
    eapply lookup_weaken in Hn; [|exact Hsub].
    destruct (Hmono (process info)) as [Hse Hex].
    destruct (Hsig n info Hn) as [Hended|Hok].
    - left. by rewrite Hex.
    - right. by rewrite Hse. }
  assert (∀ n, active_servers (stop_server k self w).1.2 !! n =
               if decide (n = k) then None else active_servers self !! n)
    as Hact.
  { intros n. destruct (active_servers self !! k) as [info|] eqn:Hk.
    - destruct (stop_server_registered k self w info Hk (Hsig k info Hk))
        as (w' & -> & _). simpl.
      case_decide as Hnk; [subst; apply lookup_delete_eq|].
      by rewrite lookup_delete_ne.
    - unfold stop_server. rewrite Hk. simpl.
      case_decide; [by subst|done]. }
  assert (∀ info, active_servers self !! k = Some info →
            is_Some (poll (stop_server k self w).2 (process info))) as Hend.
  { intros info Hk.
    destruct (stop_server_registered k self w info Hk (Hsig k info Hk))
      as (w' & -> & Hended & _). done. }
  destruct (stop_server k self w) as [[res self1] w1]. simpl in *.
  destruct (IH self1 w1 Hsig') as [Hreg Hdone].
  destruct (stop_all_shape rest self1 w1) as [_ Hkeep].
  split.
  - intros n. rewrite Hreg, Hact.
    destruct (decide (n = k)) as [->|Hne].
    + rewrite (decide_True (P := k ∈ k :: rest)); [|by left].
      by destruct (decide (k ∈ rest)).
    + destruct (decide (n ∈ rest)) as [Hin|Hnin].
      * by rewrite (decide_True (P := n ∈ k :: rest)); [|by right].
      * rewrite (decide_False (P := n ∈ k :: rest)); [done|].
        intros [?|?]%elem_of_cons; done.
  - intros n info Hn Hin.
    destruct (decide (n = k)) as [->|Hne].
    + apply Hkeep. by apply Hend.
    + apply elem_of_cons in Hn as [?|Hn]; [done|].
      eapply Hdone; [exact Hn|]. rewrite Hact. by rewrite decide_False.
Qed.

(** X10.  The shutdown loop of [main], which stops every key of the running
    map in turn: provided no signal is refused by the system, it leaves the
    running map empty and every process that was registered ended,
    whatever the order of the keys; the active pointer still holds the name
    it held. *)
Theorem stop_all_empties_registry names self w :
  (∀ n, is_Some (active_servers self !! n) ↔ n ∈ names) →
  (∀ n info,
     active_servers self !! n = Some info →
     is_Some (exit_status (procs w (process info))) ∨
     signal_error (procs w (process info)) = None) →
  active_servers (stop_all names self w).1 = ∅ ∧
  (∀ n info,
     active_servers self !! n = Some info →
     is_Some (poll (stop_all names self w).2 (process info))) ∧
  current_server (stop_all names self w).1 = current_server self.
Proof.
  intros Hkeys Hsig.
  destruct (stop_all_registry names self w Hsig) as [Hreg Hdone].
  split; [|split].
  - apply map_eq. intros n. rewrite Hreg, lookup_empty.
    case_decide as Hn; [done|].
    destruct (active_servers self !! n) eqn:Hin; [|done].
    exfalso. apply Hn, Hkeys. eauto.
  - intros n info Hin. eapply Hdone; [|exact Hin]. apply Hkeys. eauto.
  - apply stop_all_shape.
Qed.

Lemma stop_all_empties_registry_witness :
  active_servers
    (stop_all ["SecureAudit"] Sample.manager
       (Sample.quiet Sample.stubborn)).1 = ∅.
Proof.
  apply (stop_all_empties_registry ["SecureAudit"] Sample.manager
           (Sample.quiet Sample.stubborn)).
  - intros n. unfold Sample.manager. simpl. split.
    + intros [info Hn].
      destruct (decide (n = "SecureAudit")) as [->|Hne]; [by left|].
      by rewrite lookup_insert_ne, lookup_empty in Hn.
    + intros [->|[]%elem_of_nil]%elem_of_cons.
      rewrite lookup_insert_eq. eauto.
  - intros n info _. by right.
Defined.

(** ** Tool calls after a switch *)




(** ** Listing the servers *)

Lemma list_servers_loop_spec w items : ∀ acc self,
  NoDup items.*1 →
  (∀ n,
     (list_servers_loop items acc self w).1 !! n =
       match (list_to_map items : gmap string (gmap string jval)) !! n with
       | Some cfg =>
           Some (mk_row cfg (get_server_status n self w).1
                   (bool_decide (Some n = current_server self)))
       | None => acc !! n
       end) ∧
  (∀ n,
     active_servers (list_servers_loop items acc self w).2 !! n =
       match (list_to_map items : gmap string (gmap string jval)) !! n with
       | Some _ => active_servers (get_server_status n self w).2 !! n
       | None => active_servers self !! n
       end).
Proof.
  induction items as [|[k cfg] rest IH]; intros acc self Hnd.
  { split; intros n; simpl; by rewrite lookup_empty. }
  simpl in Hnd. pose proof (NoDup_cons_1_1 _ _ Hnd) as Hk.
  apply NoDup_cons_1_2 in Hnd. simpl.
  pose proof (get_server_status_current k self w) as Hp.
  pose proof (get_server_status_other k) as Hother.
  destruct (get_server_status k self w) as [st self1] eqn:Hst. simpl in *.
  destruct (IH (<[k := mk_row cfg st
                         (bool_decide (Some k = current_server self1))]> acc)
              self1 Hnd) as [Hrows Hact].
  assert ((list_to_map rest : gmap string (gmap string jval)) !! k = None)
    as Hknone by (by apply not_elem_of_list_to_map).
  split; intros n.
  - rewrite Hrows. destruct (decide (n = k)) as [->|Hne].
    + rewrite Hknone, !lookup_insert_eq, Hst, Hp. done.
    + rewrite !lookup_insert_ne by done.
      destruct (list_to_map rest !! n) as [c|]; [|done].
      destruct (get_server_status_local n self1 self w) as [-> _];
        [|by rewrite Hp].
      specialize (Hother n self w Hne). by rewrite Hst in Hother.
  - rewrite Hact. destruct (decide (n = k)) as [->|Hne].
    + by rewrite Hknone, lookup_insert_eq, Hst.
    + rewrite lookup_insert_ne by done.
      assert (active_servers self1 !! n = active_servers self !! n) as Heq.
      { specialize (Hother n self w Hne). by rewrite Hst in Hother. }
      destruct (list_to_map rest !! n) as [c|]; [|done].
      by destruct (get_server_status_local n self1 self w Heq) as [_ ->].
Qed.

(** X12.  [list_servers], run over the items of the configured servers in
    any order: the listing has a row for each configured name and no other,
    holding the configuration entry, the very status a single query for
    that name would have given before the listing, and whether the name is
    the active one.  On the registry it has, for every configured name, the
    effect of that single query (a dead entry is dropped); entries of names
    outside the configuration are left alone, and the pointer is kept. *)
Theorem list_servers_rows items self w :
  items ≡ₚ map_to_list (config_servers self) →
  (∀ n,
     (list_servers items self w).1 !! n =
       (λ cfg, mk_row cfg (get_server_status n self w).1
                 (bool_decide (Some n = current_server self)))
         <$> config_servers self !! n) ∧
  (∀ n,
     active_servers (list_servers items self w).2 !! n =
       if decide (is_Some (config_servers self !! n))
       then active_servers (get_server_status n self w).2 !! n
       else active_servers self !! n) ∧
  current_server (list_servers items self w).2 = current_server self.
Proof.
  intros Hperm.
  assert (NoDup items.*1) as Hnd.
  { rewrite Hperm. apply NoDup_fst_map_to_list. }
  assert ((list_to_map items : gmap string (gmap string jval)) =
            config_servers self) as Hmap.
  { rewrite <- (list_to_map_to_list (config_servers self)).
    by apply list_to_map_proper. }
  destruct (list_servers_loop_spec w items ∅ self Hnd) as [Hrows Hact].
  unfold list_servers. split; [|split].
  - intros n. rewrite Hrows, Hmap.
    destruct (config_servers self !! n); [done|]. by rewrite lookup_empty.
  - intros n. rewrite Hact, Hmap.
    destruct (config_servers self !! n) as [c|].
    + rewrite decide_True; [done|eauto].
    + rewrite decide_False; [done|]. by intros [? ?].
  - apply list_servers_loop_shape.
Qed.

Lemma list_servers_rows_witness :
  (list_servers (map_to_list (config_servers Sample.manager))
     Sample.manager (Sample.quiet Sample.dead)).1 !! "SecureAudit" =
    Some (mk_row Sample.net (StatusEnded 1 1000) true) ∧
  active_servers
    (list_servers (map_to_list (config_servers Sample.manager))
       Sample.manager (Sample.quiet Sample.dead)).2 !! "SecureAudit" = None.
Proof.
  destruct (list_servers_rows (map_to_list (config_servers Sample.manager))
              Sample.manager (Sample.quiet Sample.dead))
    as (Hrows & Hact & _); [reflexivity|].
  split; [exact (Hrows "SecureAudit")|].
  specialize (Hact "SecureAudit").
  rewrite decide_True in Hact; [exact Hact|by eexists].
Defined.

(** ** Startup *)

Lemma subseteq_empty_registry (m : gmap string process_info) :
  m ⊆ ∅ → m = ∅.
Proof.
  intros Hsub. apply map_eq. intros i. rewrite lookup_empty.
  destruct (m !! i) eqn:Hi; [|done].
  eapply lookup_weaken in Hi; [|exact Hsub]. by rewrite lookup_empty in Hi.
Qed.

(** X13.  After the startup sequence of [main] either nothing is
    registered, or exactly one worker is: it is registered under the name
    the active pointer holds, with the one process id handed out. *)
Theorem main_startup_registers_at_most_default file w :
  (active_servers (main_startup file w).1 = ∅ ∧
   next_pid (main_startup file w).2 = next_pid w) ∨
  ∃ name info,
    current_server (main_startup file w).1 = Some name ∧
    active_servers (main_startup file w).1 = {[name := info]} ∧
    process info = next_pid w ∧
    next_pid (main_startup file w).2 = next_pid w + 1.
Proof.
  unfold main_startup.
  destruct (current_server (__init__ file)) as [n|] eqn:Hcur; [|by left].
  case_decide; [by left|].
  destruct (start_server_shape n (__init__ file) w) as [_ Hrun].
  pose proof (start_server_current n (__init__ file) w) as Hp.
  destruct (start_server n (__init__ file) w) as [[[ok msg] self'] w'].
  simpl in *. destruct ok.
  - destruct Hrun as (cfg & base & _ & _ & Hsub & Hact & Hpid).
    apply subseteq_empty_registry in Hsub. subst base.
    right. exists n, (mk_info (next_pid w) (now w) (now w) cfg).
    rewrite Hp, Hcur, Hact. by rewrite insert_empty.
  - destruct Hrun as [Hsub Hpid]. left.
    split; [by apply subseteq_empty_registry|done].
Qed.

(** ** The command lines *)

(** X14.  When the configured host is a string, every argument of every
    command of the table is a string, whatever the type of the configured
    port: the port is passed through [str]. *)
Theorem server_commands_all_strings cfg h table name cmd a :
  cfg !! "host" = Some (JStr h) →
  server_commands cfg = inr table →
  table !! name = Some cmd →
  a ∈ cmd →
  ∃ s, a = JStr s.
Proof.
  intros Hh. unfold server_commands. rewrite Hh.
  destruct (cfg !! "port") as [port|]; [|done].
  intros [= <-] Hcmd Ha.
  repeat (apply lookup_insert_Some in Hcmd as [[_ <-]|[_ Hcmd]];
          [repeat (apply elem_of_cons in Ha as [->|Ha]; [eauto|]);
           by apply elem_of_nil in Ha|]).
  by rewrite lookup_empty in Hcmd.
Qed.

Lemma server_commands_all_strings_witness : ∃ s, JStr "8080" = JStr s.
Proof.
  destruct (server_commands Sample.net) as [e|table] eqn:Htab;
    [discriminate Htab|].
  apply (server_commands_all_strings Sample.net "127.0.0.1" table
           "HttpAuditServer"
           [JStr "python3"; JStr "servers/http_audit_server.py";
            JStr "--transport"; JStr "http"; JStr "--host";
            JStr "127.0.0.1"; JStr "--port"; JStr "8080"]
           (JStr "8080")).
  - reflexivity.
  - exact Htab.
  - injection Htab as <-. reflexivity.
  - repeat constructor.
Defined.

(** ** The audit forms *)

Lemma collect_updates_lookup form fields : ∀ acc f,
  collect_updates fields form acc !! f =
    if decide (f ∈ fields) then
      match form !! f with
      | Some value => if decide (value = "") then acc !! f
                      else Some (JStr value)
      | None => acc !! f
      end
    else acc !! f.
Proof.
  induction fields as [|k rest IH]; intros acc f.
  { cbn [collect_updates].
    by destruct (decide (f ∈ [])) as [?%elem_of_nil|]. }
  cbn [collect_updates].
  assert (collect_updates rest form acc !! f =
          if decide (f ∈ rest) then
            match form !! f with
            | Some value => if decide (value = "") then acc !! f
                            else Some (JStr value)
            | None => acc !! f
            end
          else acc !! f) as Hskip by apply IH.
  destruct (decide (f = k)) as [->|Hne].
  - rewrite (decide_True (P := k ∈ k :: rest)); [|by left].
    destruct (form !! k) as [value|] eqn:Hk.
    + destruct (decide (value = "")) as [Hv|Hv].
      * rewrite Hskip. by destruct (decide (k ∈ rest)).
      * rewrite IH. destruct (decide (k ∈ rest)).
        -- rewrite Hk. by rewrite decide_False.
        -- by rewrite lookup_insert_eq.
    + rewrite Hskip. by destruct (decide (k ∈ rest)).
  - assert (collect_updates rest form acc !! f =
            if decide (f ∈ k :: rest) then
              match form !! f with
              | Some value => if decide (value = "") then acc !! f
                              else Some (JStr value)
              | None => acc !! f
              end
            else acc !! f) as Hgoal.
    { rewrite Hskip. destruct (decide (f ∈ rest)) as [Hin|Hnin].
      - by rewrite (decide_True (P := f ∈ k :: rest)); [|by right].
      - rewrite (decide_False (P := f ∈ k :: rest)); [done|].
        intros [?|?]%elem_of_cons; done. }
    destruct (form !! k) as [value|]; [|done].
    destruct (decide (value = "")); [done|].
    rewrite IH, lookup_insert_ne by done. rewrite <- Hskip. exact Hgoal.
Qed.

Lemma in_active_true self :
  in_active (current_server self) self = true ↔
  ∃ n info, current_server self = Some n ∧
            active_servers self !! n = Some info.
Proof.
  unfold in_active. destruct (current_server self) as [n|].
  - rewrite bool_decide_eq_true. split.
    + intros [info Hin]. by exists n, info.
    + intros (n' & info & [= <-] & Hin). eauto.
  - split; [done|]. by intros (? & ? & ? & _).
Qed.

Lemma call_tool_log tool kwargs self w :
  in_active (current_server self) self = true →
  log (call_tool tool kwargs self w).2 = log w ++ [RunScript tool kwargs].
Proof.
  intros Hin. unfold call_tool. rewrite Hin. simpl.
  destruct (run_script w tool kwargs); [|done]. by case_decide.
Qed.

Lemma call_tool_success tool kwargs self w :
  success (call_tool tool kwargs self w).1 = true ↔
  in_active (current_server self) self = true ∧
  ∃ stderr, run_script w tool kwargs = ScriptExit 0 stderr.
Proof.
  unfold call_tool.
  destruct (in_active (current_server self) self); simpl;
    [|split; [done|by intros [? _]]].
  destruct (run_script w tool kwargs) as [rc stderr|msg].
  - case_decide as Hrc; simpl.
    + subst. split; [eauto|done].
    + split; [done|]. intros [_ [? [= ? _]]]. done.
  - simpl. split; [done|]. by intros [_ [? ?]].
Qed.

(** X15.  The form of [update_audit], posted while the active worker is
    registered: the one tool call made carries the audit id and, of the five
    editable fields, exactly those for which the form has a value that is
    not empty, each with that value; a field left empty, a field missing and
    a field outside the five are not sent. *)
Theorem update_audit_sends_filled_fields audit_id form self w n info :
  current_server self = Some n →
  active_servers self !! n = Some info →
  ∃ kwargs,
    log (update_audit audit_id (Some form) self w).2 =
      log w ++ [RunScript "update_audit" kwargs] ∧
    ∀ f v,
      kwargs !! f = Some v ↔
      (f = "audit_id" ∧ v = JInt audit_id) ∨
      (f ∈ update_fields ∧
       ∃ s, v = JStr s ∧ s ≠ "" ∧ form !! f = Some s).
Proof.
  intros Hcur Hin.
  assert (in_active (current_server self) self = true) as Hact.
  { apply in_active_true. eauto. }
  exists (<["audit_id" := JInt audit_id]> ∅ ∪
            collect_updates update_fields form ∅).
  split.
  - unfold update_audit.
    pose proof (call_tool_log "update_audit"
                  (<["audit_id" := JInt audit_id]> ∅ ∪
                     collect_updates update_fields form ∅) self w Hact) as Hl.
    destruct (call_tool _ _ self w) as [result w']. simpl in Hl.
    by destruct (success result).
  - intros f v. destruct (decide (f = "audit_id")) as [->|Hne].
    + rewrite (lookup_union_l' _ _ "audit_id") by (rewrite lookup_insert_eq; eauto).
      rewrite lookup_insert_eq. split.
      * intros [= <-]. by left.
      * intros [[_ ->]|[Hf _]]; [done|].
        exfalso. revert Hf. unfold update_fields.
        rewrite !elem_of_cons, elem_of_nil.
        intros [?|[?|[?|[?|[?|[]]]]]]; discriminate.
    + rewrite lookup_union_r by (by rewrite lookup_insert_ne, lookup_empty).
      rewrite collect_updates_lookup, lookup_empty.
      destruct (decide (f ∈ update_fields)) as [Hf|Hf].
      * destruct (form !! f) as [s|] eqn:Hs.
        -- destruct (decide (s = "")) as [->|Hs'].
           ++ split; [done|]. intros [[? _]|[_ (s & _ & Hs' & [= <-])]]; done.
           ++ split.
              ** intros [= <-]. right. split; [done|]. by exists s.
              ** intros [[? _]|[_ (s' & -> & _ & [= <-])]]; done.
        -- split; [done|]. intros [[? _]|[_ (s & _ & _ & ?)]]; done.
      * split; [done|]. intros [[? _]|[? _]]; done.
Qed.

Lemma update_audit_sends_filled_fields_witness :
  ∃ kwargs,
    log (update_audit 3
           (Some (<["title" := "New"]> (<["status" := ""]> ∅)))
           Sample.manager (Sample.quiet Sample.obedient)).2 =
      [RunScript "update_audit" kwargs] ∧
    kwargs !! "title" = Some (JStr "New") ∧
    kwargs !! "status" = None.
Proof.
  destruct (update_audit_sends_filled_fields 3
              (<["title" := "New"]> (<["status" := ""]> ∅))
              Sample.manager (Sample.quiet Sample.obedient)
              "SecureAudit" Sample.entry)
    as (kwargs & Hlog & Hk); [reflexivity..|].
  exists kwargs. split; [exact Hlog|].
  injection Hlog as <-. split; reflexivity.
Defined.

(** X16.  The form of [create_audit] reports "Audit created successfully"
    and redirects to the list exactly when the title is not empty, the
    active worker is registered and the temporary script ends with return
    code 0; the answer of the worker plays no part.  With an empty or
    missing title nothing is run at all. *)
Theorem create_audit_reported_success form self w :
  ((create_audit (Some form) self w).1 =
     ([("Audit created successfully", "success")], Redirect "list_audits") ↔
   form_get form "title" "" ≠ "" ∧
   (∃ n info, current_server self = Some n ∧
              active_servers self !! n = Some info) ∧
   ∃ stderr,
     run_script w "create_audit" (create_audit_kwargs form) =
       ScriptExit 0 stderr) ∧
  (form_get form "title" "" = "" →
   create_audit (Some form) self w =
     ([("Title is required", "error")], Render "create_audit.html", w)).
Proof.
  unfold create_audit. split.
  - case_decide as Ht.
    { simpl. split; [done|]. by intros [? _]. }
    pose proof (call_tool_success "create_audit" (create_audit_kwargs form)
                  self w) as Hs.
    rewrite in_active_true in Hs.
    destruct (call_tool "create_audit" (create_audit_kwargs form) self w)
      as [result w']. simpl in Hs.
    destruct (success result); simpl.
    + split; [|done]. intros _. split; [done|]. by apply Hs.
    + split; [done|]. intros (_ & H1 & H2).
      assert (false = true) by (apply Hs; done). done.
  - intros Ht. by rewrite decide_True.
Qed.

Lemma create_audit_reported_success_witness :
  create_audit (Some (<["description" := "no title"]> ∅)) Sample.manager
    (Sample.quiet Sample.obedient) =
    ([("Title is required", "error")], Render "create_audit.html",
     Sample.quiet Sample.obedient).
Proof.
  apply (create_audit_reported_success (<["description" := "no title"]> ∅)
           Sample.manager (Sample.quiet Sample.obedient)).
  reflexivity.
Defined.

(** ** Starting one worker leaves the others alone *)

Lemma start_server_launch_frame name self w :
  (∀ other, other ≠ name →
     active_servers (start_server_launch name self w).1.2 !! other =
       active_servers self !! other) ∧
  (∀ pid, pid ≠ next_pid w →
     procs (start_server_launch name self w).2 pid = procs w pid).
Proof.
  unfold start_server_launch.
  destruct (get_server_config name self) as [c|]; [|done].
  case_decide; [done|].
  destruct (server_commands c) as [e|table]; [done|].
  destruct (table !! name) as [cmd|]; [|done].
  unfold popen. destruct (spawn w cmd) as [e|p]; [done|]. simpl. split.
  - intros other Hne. by rewrite lookup_insert_ne.
  - intros pid Hne. by rewrite fn_lookup_insert_ne.
Qed.

(** X17.  A start, whether it succeeds or fails, changes no entry under
    another name and no process that existed before: at most it registers
    its own name, with the process id handed out next, and when it fails
    its own name is afterwards either unregistered or registered exactly as
    before. *)
Theorem start_server_leaves_the_rest name self w :
  (∀ other, other ≠ name →
     active_servers (start_server name self w).1.2 !! other =
       active_servers self !! other) ∧
  (∀ pid, pid ≠ next_pid w →
     procs (start_server name self w).2 pid = procs w pid) ∧
  ((start_server name self w).1.1.1 = false →
   active_servers (start_server name self w).1.2 !! name = None ∨
   active_servers (start_server name self w).1.2 = active_servers self).
Proof.
  split; [|split].
  - intros other Hne. unfold start_server.
    destruct (active_servers self !! name) as [info|];
      [|by apply start_server_launch_frame].
    pose proof (get_server_status_other name other self w Hne) as Hother.
    destruct (get_server_status name self w) as [st self1]. simpl in *.
    destruct (running st); [done|]. rewrite <- Hother.
    by apply start_server_launch_frame.
  - intros pid Hne. unfold start_server.
    destruct (active_servers self !! name) as [info|];
      [|by apply start_server_launch_frame].
    destruct (get_server_status name self w) as [st self1].
    destruct (running st); [done|]. by apply start_server_launch_frame.
  - intros Hfail. revert Hfail. unfold start_server.
    assert (∀ self0,
      (start_server_launch name self0 w).1.1.1 = false →
      active_servers (start_server_launch name self0 w).1.2 =
        active_servers self0) as Hlaunch.
    { intros self0 Hf.
      destruct (start_server_launch_shape name self0 w) as [_ Hrun].
      rewrite Hf in Hrun. by destruct Hrun. }
    destruct (active_servers self !! name) as [info|] eqn:Hin;
      [|intros Hf; right; by apply Hlaunch].
    unfold get_server_status. rewrite Hin.
    destruct (poll w (process info)); simpl; [|by right].
    intros Hf. left. rewrite (Hlaunch _ Hf). simpl. apply lookup_delete_eq.
Qed.

Lemma start_server_leaves_the_rest_witness :
  active_servers
    (start_server "Custom" Sample.manager (Sample.quiet Sample.dead)).1.2
    !! "SecureAudit" = Some Sample.entry ∧
  (active_servers
     (start_server "SecureAudit" Sample.manager
        (Sample.quiet Sample.obedient)).1.2 !! "SecureAudit" = None ∨
   active_servers
     (start_server "SecureAudit" Sample.manager
        (Sample.quiet Sample.obedient)).1.2 =
     active_servers Sample.manager).
Proof.
  split.
  - apply (proj1 (start_server_leaves_the_rest "Custom" Sample.manager
                    (Sample.quiet Sample.dead)) "SecureAudit").
    discriminate.
  - apply (start_server_leaves_the_rest "SecureAudit" Sample.manager
             (Sample.quiet Sample.obedient)).
    reflexivity.
Defined.

(** ** Tool calls after a stop *)

Lemma start_server_other name other self w :
  other ≠ name →
  active_servers (start_server name self w).1.2 !! other =
    active_servers self !! other.
Proof.
  intros Hne. unfold start_server.
  destruct (active_servers self !! name) as [info|];
    [|by apply start_server_launch_frame].
  pose proof (get_server_status_other name other self w Hne) as Hother.
  destruct (get_server_status name self w) as [st self1]. simpl in *.
  destruct (running st); [done|]. rewrite <- Hother.
  by apply start_server_launch_frame.
Qed.

(** Without a switch and without a start of [name], the pointer stays on
    [name] and [name] stays unregistered. *)
Lemma stopped_step name e self w :
  no_restart name e →
  current_server self = Some name →
  active_servers self !! name = None →
  current_server (step (self, w) e).1 = Some name ∧
  active_servers (step (self, w) e).1 !! name = None.
Proof.
  intros He Hcur Hout.
  destruct e as [n|items|n|n|n|tool kwargs|pid code]; simpl in *;
    try done.
  - rewrite get_server_status_current. split; [done|].
    eapply lookup_weaken_None; [exact Hout|].
    apply get_server_status_subseteq.
  - destruct (list_servers_loop_shape items ∅ self w) as (_ & Hp & Hsub).
    unfold list_servers. rewrite Hp. split; [done|].
    by eapply lookup_weaken_None.
  - pose proof (start_server_current n self w) as Hp.
    pose proof (start_server_other n name self w) as Ho.
    destruct (start_server n self w) as [[res self'] w']. simpl in *.
    rewrite Hp, Ho; [done|]. by intros ->.
  - pose proof (stop_server_current n self w) as Hp.
    destruct (stop_server_shape n self w) as (_ & Hsub & _).
    destruct (stop_server n self w) as [[res self'] w']. simpl in *.
    rewrite Hp. split; [done|]. by eapply lookup_weaken_None.
Qed.

Lemma stopped_run name es : ∀ self w,
  Forall (no_restart name) es →
  current_server self = Some name →
  active_servers self !! name = None →
  current_server (run es (self, w)).1 = Some name ∧
  active_servers (run es (self, w)).1 !! name = None.
Proof.
  induction es as [|e es IH]; intros self w Hes Hcur Hout; [done|].
  change (run (e :: es) (self, w)) with (run es (step (self, w) e)).
  apply Forall_cons_1 in Hes as [He Hes].
  destruct (stopped_step name e self w He Hcur Hout) as [Hcur' Hout'].
  destruct (step (self, w) e) as [self' w']. by apply IH.
Qed.

(** C1, amended.  After a successful [stop_server name] on the active
    worker, the pointer still holds [name] and [name] is no longer a key of
    [active_servers].  From then on, in any state of the system and after
    any further status queries, listings, stops, starts of other names,
    tool calls and process exits, every tool call fails with "Server [name]
    is not running", without running anything, for as long as no switch is
    made and [name] is not started again.  A start of [name] that succeeds
    registers it again under the pointer that was never moved, so that the
    guard of the tool calls passes without any switch. *)
Theorem stop_active_pointer_kept name self w msg self' w' :
  current_server self = Some name →
  stop_server name self w = ((true, msg), self', w') →
  current_server self' = Some name ∧
  active_servers self' !! name = None ∧
  (∀ es w2 tool kwargs,
     Forall (no_restart name) es →
     call_tool tool kwargs (run es (self', w2)).1 (run es (self', w2)).2 =
       (ToolFailure ("Server " +:+ name +:+ " is not running") None,
        (run es (self', w2)).2)) ∧
  (∀ w2,
     (start_server name self' w2).1.1.1 = true →
     current_server (start_server name self' w2).1.2 = Some name ∧
     is_Some (active_servers (start_server name self' w2).1.2 !! name) ∧
     ∀ tool kwargs w3,
       log (call_tool tool kwargs (start_server name self' w2).1.2 w3).2 =
         log w3 ++ [RunScript tool kwargs]).
Proof.
  intros Hact Hstop.
  pose proof (stop_server_current name self w) as Hcur.
  rewrite Hstop in Hcur. simpl in Hcur. rewrite Hact in Hcur.
  assert (active_servers self' !! name = None) as Hgone.
  { revert Hstop. unfold stop_server.
    destruct (active_servers self !! name) as [info|]; [|done].
    destruct (terminate (process info) w); [done|].
    intros [= _ <- _]. apply lookup_delete_eq. }
  split; [done|]. split; [done|]. split.
  - intros es w2 tool kwargs Hes.
    destruct (stopped_run name es self' w2 Hes Hcur Hgone) as [Hc Hg].
    unfold call_tool, in_active. rewrite Hc, Hg.
    rewrite bool_decide_eq_false_2; [|by intros [? ?]]. done.
  - intros w2 Hok.
    pose proof (start_server_current name self' w2) as Hc.
    pose proof (start_server_registers name self' w2 Hok) as Hr.
    rewrite Hcur in Hc. split; [done|]. split; [done|].
    intros tool kwargs w3. apply call_tool_log.
    apply in_active_true. destruct Hr as [info Hr]. eauto.
Qed.

(** After the stop: a status query, a stop and a start of another name do
    not help; a start of the stopped name does. *)
Lemma stop_active_pointer_kept_witness :
  current_server Sample.stopped = Some "SecureAudit" ∧
  call_tool "echo" Sample.hi
    (run [EStatus "SecureAudit"; EStop "SecureAudit"; EStart "Custom"]
       (Sample.stopped, Sample.quiet Sample.dead)).1
    (run [EStatus "SecureAudit"; EStop "SecureAudit"; EStart "Custom"]
       (Sample.stopped, Sample.quiet Sample.dead)).2 =
    (ToolFailure "Server SecureAudit is not running" None,
     (run [EStatus "SecureAudit"; EStop "SecureAudit"; EStart "Custom"]
        (Sample.stopped, Sample.quiet Sample.dead)).2) ∧
  log (call_tool "echo" Sample.hi
         (start_server "SecureAudit" Sample.stopped
            (Sample.quiet Sample.dead)).1.2
         (Sample.quiet Sample.dead)).2 = [RunScript "echo" Sample.hi].
Proof.
  destruct (stop_active_pointer_kept "SecureAudit" Sample.manager
              (Sample.quiet Sample.obedient)
              "Stopped SecureAudit successfully" Sample.stopped
              (stop_server "SecureAudit" Sample.manager
                 (Sample.quiet Sample.obedient)).2)
    as (Hcur & _ & Hfail & Hstart); [reflexivity..|].
  split; [exact Hcur|]. split.
  - apply (Hfail [EStatus "SecureAudit"; EStop "SecureAudit"; EStart "Custom"]).
    repeat constructor. discriminate.
  - apply (Hstart (Sample.quiet Sample.dead)). reflexivity.
Defined.
